(** * Authentication core of the collaboration-games backend

    A shallow embedding of [app/api/auth/jwt.py] and [app/api/auth/router.py]:
    the credential authenticator, the token issuer, the identity resolver and
    the login / registration handlers, together with the properties the
    natural-language specification states about them.

    Conventions.
    - A Python [int] is a [Z]; a [datetime] is a [Z] counting microseconds
      since the epoch and a [timedelta] is a [Z] counting microseconds.
    - A Python [dict] with string keys is a [gmap string pyval].
    - A raised exception is a value of [exn]; a call that can raise returns
      a [result].
    - The SQLAlchemy session is an explicit state ([Session]); the places
      where the database can fail are explicit inputs ([Faults]). *)

From Stdlib Require Import ZArith Lia Ascii String List Bool.
From Stdlib Require Import Decimal DecimalString DecimalPos DecimalN DecimalZ.
From stdpp Require Import base option list strings gmap.

Local Open Scope Z_scope.
Local Open Scope string_scope.

(** ** Python text builtins: [str(int)] and [int(str)] *)

Module PyText.

(** [str(n)] for an [int]: the decimal digits, with a leading minus sign for
    a negative number. *)
Definition py_str (n : Z) : string := NilZero.string_of_int (Z.to_int n).

(** The characters [int()] skips around a literal: space, tab, line feed,
    vertical tab, form feed and carriage return. *)
Definition is_space (c : ascii) : bool :=
  let n := N_of_ascii c in
  (N.eqb n 32 || (N.leb 9 n && N.leb n 13))%bool.

Definition digit_val (c : ascii) : option Z :=
  let n := Z.of_N (N_of_ascii c) in
  if (Z.leb 48 n && Z.leb n 57)%bool then Some (n - 48) else None.

Fixpoint lstrip (s : string) : string :=
  match s with
  | String c r => if is_space c then lstrip r else s
  | EmptyString => EmptyString
  end.

Fixpoint string_rev_app (s acc : string) : string :=
  match s with
  | String c r => string_rev_app r (String c acc)
  | EmptyString => acc
  end.

Definition string_rev (s : string) : string := string_rev_app s EmptyString.

Definition strip (s : string) : string :=
  string_rev (lstrip (string_rev (lstrip s))).

(** The digits after the first one: a digit, or one underscore followed by a
    digit.  [acc] is the value of the digits read so far. *)
Fixpoint int_digits (s : string) (acc : Z) : option Z :=
  match s with
  | EmptyString => Some acc
  | String c r =>
      if Ascii.eqb c "_"%char then
        match r with
        | String d r' =>
            match digit_val d with
            | Some v => int_digits r' (10 * acc + v)
            | None => None
            end
        | EmptyString => None
        end
      else
        match digit_val c with
        | Some v => int_digits r (10 * acc + v)
        | None => None
        end
  end.

Definition int_unsigned (s : string) : option Z :=
  match s with
  | String c r =>
      match digit_val c with
      | Some v => int_digits r v
      | None => None
      end
  | EmptyString => None
  end.

(** [int] on text made of ASCII characters only: surrounding white space,
    an optional sign, digits with single underscores between them. *)
Definition int_ascii (s : string) : option Z :=
  match strip s with
  | String c r =>
      if Ascii.eqb c "-"%char then Z.opp <$> int_unsigned r
      else if Ascii.eqb c "+"%char then int_unsigned r
      else int_unsigned (String c r)
  | EmptyString => None
  end.

(** A [str] is held as its UTF-8 bytes.  [utf8_decode] gives its code
    points, or [None] for bytes that are no UTF-8 text. *)
Definition byte_val (c : ascii) : Z := Z.of_N (N_of_ascii c).

Definition is_continuation (c : ascii) : bool :=
  (Z.leb 128 (byte_val c) && Z.leb (byte_val c) 191)%bool.

Fixpoint utf8_decode (s : string) : option (list Z) :=
  match s with
  | EmptyString => Some []
  | String b0 r =>
      let v0 := byte_val b0 in
      if Z.ltb v0 128 then cons v0 <$> utf8_decode r
      else
        match r with
        | EmptyString => None
        | String b1 r1 =>
            if negb (is_continuation b1) then None
            else if (Z.leb 194 v0 && Z.leb v0 223)%bool then
              cons ((v0 - 192) * 64 + (byte_val b1 - 128)) <$> utf8_decode r1
            else
              match r1 with
              | EmptyString => None
              | String b2 r2 =>
                  if negb (is_continuation b2) then None
                  else if (Z.leb 224 v0 && Z.leb v0 239)%bool then
                    let cp := (v0 - 224) * 4096 + (byte_val b1 - 128) * 64
                              + (byte_val b2 - 128) in
                    if (Z.ltb cp 2048
                        || (Z.leb 55296 cp && Z.leb cp 57343))%bool
                    then None
                    else cons cp <$> utf8_decode r2
                  else
                    match r2 with
                    | EmptyString => None
                    | String b3 r3 =>
                        if negb (is_continuation b3) then None
                        else if (Z.leb 240 v0 && Z.leb v0 244)%bool then
                          let cp := (v0 - 240) * 262144
                                    + (byte_val b1 - 128) * 4096
                                    + (byte_val b2 - 128) * 64
                                    + (byte_val b3 - 128) in
                          if (Z.ltb cp 65536 || Z.ltb 1114111 cp)%bool
                          then None
                          else cons cp <$> utf8_decode r3
                        else None
                    end
              end
        end
  end.

(** The white-space characters beyond ASCII. *)
Definition unicode_space (cp : Z) : bool :=
  (Z.eqb cp 133 || Z.eqb cp 160 || Z.eqb cp 5760
   || (Z.leb 8192 cp && Z.leb cp 8202)
   || Z.eqb cp 8232 || Z.eqb cp 8233 || Z.eqb cp 8239 || Z.eqb cp 8287
   || Z.eqb cp 12288)%bool.

(** Where the runs of ten decimal digits start (Unicode 15.0, general
    category Nd). *)
Definition unicode_digit_runs : list Z :=
  [ 0x0660; 0x06F0; 0x07C0; 0x0966; 0x09E6; 0x0A66; 0x0AE6; 0x0B66;
    0x0BE6; 0x0C66; 0x0CE6; 0x0D66; 0x0DE6; 0x0E50; 0x0ED0; 0x0F20;
    0x1040; 0x1090; 0x17E0; 0x1810; 0x1946; 0x19D0; 0x1A80; 0x1A90;
    0x1B50; 0x1BB0; 0x1C40; 0x1C50; 0xA620; 0xA8D0; 0xA900; 0xA9D0;
    0xA9F0; 0xAA50; 0xABF0; 0xFF10; 0x104A0; 0x10D30; 0x11066; 0x110F0;
    0x11136; 0x111D0; 0x112F0; 0x11450; 0x114D0; 0x11650; 0x116C0;
    0x11730; 0x118E0; 0x11950; 0x11C50; 0x11D50; 0x11DA0; 0x11F50;
    0x16A60; 0x16AC0; 0x16B50; 0x1D7CE; 0x1D7D8; 0x1D7E2; 0x1D7EC;
    0x1D7F6; 0x1E140; 0x1E2F0; 0x1E4F0; 0x1E950; 0x1FBF0 ].

Definition unicode_decimal (cp : Z) : option Z :=
  match find (fun start => (Z.leb start cp && Z.leb cp (start + 9))%bool)
             unicode_digit_runs with
  | Some start => Some (cp - start)
  | None => None
  end.

(** What [int] makes of one character before it reads the literal: ASCII
    stays, white space becomes a space, a decimal digit of any script its
    ASCII digit, anything else a question mark. *)
Definition to_ascii_char (cp : Z) : ascii :=
  if Z.ltb cp 127 then ascii_of_N (Z.to_N cp)
  else if unicode_space cp then " "%char
  else match unicode_decimal cp with
       | Some d => ascii_of_N (Z.to_N (48 + d))
       | None => "?"%char
       end.

Definition string_of_bytes (l : list ascii) : string :=
  fold_right String EmptyString l.

Fixpoint is_ascii_text (s : string) : bool :=
  match s with
  | EmptyString => true
  | String c r => (Z.ltb (byte_val c) 128 && is_ascii_text r)%bool
  end.

(** [int(s)] in base ten: [Some n] when the text is an integer literal,
    [None] when Python raises [ValueError].  The interpreter's limit on the
    number of digits ([sys.set_int_max_str_digits]) is taken to be off. *)
Definition py_int (s : string) : option Z :=
  if is_ascii_text s then int_ascii s
  else
    match utf8_decode s with
    | Some cps => int_ascii (string_of_bytes (map to_ascii_char cps))
    | None => None
    end.

(** [",".join(xs)] *)
Fixpoint join (sep : string) (xs : list string) : string :=
  match xs with
  | [] => EmptyString
  | [x] => x
  | x :: rest => x ++ sep ++ join sep rest
  end.

End PyText.

Import PyText.

(** ** Python values, exceptions and results *)

(** The values a token payload or a claims [dict] can hold.  A [datetime]
    only occurs before encoding: the encoder turns it into whole seconds. *)
#[warnings="-register-all"]
Inductive pyval : Type :=
| PNone
| PBool (b : bool)
| PInt (n : Z)
| PStr (s : string)
| PDatetime (t : Z)
| PList (l : list pyval).

Record HTTPException : Type := mkHTTPException {
  status_code : Z;
  detail : string;
  headers : list (string * string)
}.

(** The exceptions of the program; each carries the text [str(e)] gives. *)
Inductive exn : Type :=
| HTTP (e : HTTPException)
| JWTError (msg : string)
| ValueError (msg : string)
| ValidationError (msg : string)
| OperationalError (msg : string)
| TypeError (msg : string).

Definition exn_str (e : exn) : string :=
  match e with
  | HTTP h => detail h
  | JWTError m | ValueError m | ValidationError m | OperationalError m
  | TypeError m => m
  end.

Inductive result (A : Type) : Type :=
| Return (a : A)
| Raise (e : exn).
Arguments Return {A} a.
Arguments Raise {A} e.

Definition HTTP_400_BAD_REQUEST : Z := 400.
Definition HTTP_401_UNAUTHORIZED : Z := 401.
Definition HTTP_500_INTERNAL_SERVER_ERROR : Z := 500.

Definition www_authenticate : list (string * string) :=
  [("WWW-Authenticate", "Bearer")].

(** The error kinds of the specification, read off a raised [HTTPException]
    by its status and message. *)
Inductive ErrorKind : Type :=
| Unauthenticated
| InvalidToken
| InvalidCredentials
| PasswordMismatch
| DuplicateName
| PersistenceFailure.

Definition error_kind (h : HTTPException) : option ErrorKind :=
  if Z.eqb (status_code h) 401 then
    if String.eqb (detail h) "認証情報が必要です" then Some Unauthenticated
    else if String.eqb (detail h) "ユーザーが存在しません" then Some Unauthenticated
    else if String.eqb (detail h) "無効な認証トークンです" then Some InvalidToken
    else if String.eqb (detail h) "無効な認証トークン形式です" then Some InvalidToken
    else if String.eqb (detail h) "ユーザー名またはパスワードが無効です"
         then Some InvalidCredentials
    else None
  else if Z.eqb (status_code h) 400 then
    if String.eqb (detail h) "パスワードが一致しません" then Some PasswordMismatch
    else if String.eqb (detail h) "このユーザー名は既に使用されています"
         then Some DuplicateName
    else None
  else if Z.eqb (status_code h) 500 then Some PersistenceFailure
  else None.

(** A handler or dependency fails with kind [k]. *)
Definition fails_with {A} (r : result A) (k : ErrorKind) : Prop :=
  exists h, r = Raise (HTTP h) /\ error_kind h = Some k.

(** ** Signed tokens ([jose.jwt])

    A token is kept symbolically: either a compact JWS over a claims object,
    remembering the algorithm and the key that signed it, or any other
    string. *)

Inductive token : Type :=
| Jws (alg key : string) (claims : gmap string pyval)
| Malformed (s : string).

(** ** Configuration, models and schemas *)

Record Settings : Type := mkSettings {
  SECRET_KEY : string;
  ALGORITHM : string;
  ACCESS_TOKEN_EXPIRE_MINUTES : Z
}.

Module models.
(** The columns of [User] the authentication core reads or writes. *)
Record User : Type := mkUser {
  user_id : Z;
  name : string;
  password : string;
  categories : string;
  point_total : Z;
  last_login_at : option Z
}.
End models.

Module schemas.
Record UserCreate : Type := mkUserCreate {
  name : string;
  password : string;
  confirm_password : string;
  categories : list string
}.
Record Token : Type := mkToken {
  access_token : token;
  token_type : string;
  user_id : Z;
  user_name : string
}.
End schemas.

Abbreviation User := models.User.
Abbreviation UserCreate := schemas.UserCreate.
Abbreviation Token := schemas.Token.

(** [timedelta(minutes=m)] and [timedelta(seconds=s)], in microseconds. *)
Definition timedelta_minutes (m : Z) : Z := m * 60000000.
Definition timedelta_seconds (s : Z) : Z := s * 1000000.

(** [timegm(d.utctimetuple())]: the whole seconds of a [datetime]. *)
Definition timegm (t : Z) : Z := t / 1000000.

(** ** The database session

    [rows] is the committed [users] table; [added] and [dirty] are the
    session's pending inserts and pending row updates.  The session factory
    is built with [autoflush=False], so a query reads [rows] only. *)

Record Session : Type := mkSession {
  rows : list User;
  added : list User;
  dirty : list User
}.

(** Where the database fails during one request: [Some msg] makes the
    operation raise an error whose text is [msg]. *)
Record Faults : Type := mkFaults {
  query_fault : option string;
  commit_fault : option string;
  refresh_fault : option string
}.

Definition no_faults : Faults := mkFaults None None None.

(** The key the table assigns to the next inserted row (auto-increment). *)
Definition next_user_id (rs : list User) : Z :=
  1 + fold_right Z.max 0 (map models.user_id rs).

Definition set_user_id (k : Z) (u : User) : User :=
  models.mkUser k (models.name u) (models.password u) (models.categories u)
    (models.point_total u) (models.last_login_at u).

Definition set_last_login_at (t : Z) (u : User) : User :=
  models.mkUser (models.user_id u) (models.name u) (models.password u)
    (models.categories u) (models.point_total u) (Some t).

(** Insert the pending objects one by one, each receiving its key. *)
Fixpoint flush_added (rs : list User) (us : list User) : list User :=
  match us with
  | [] => rs
  | u :: us' => flush_added (rs ++ [set_user_id (next_user_id rs) u]) us'
  end.

(** Write a pending update over the row with the same key. *)
Definition update_row (u : User) (rs : list User) : list User :=
  map (fun r => if Z.eqb (models.user_id r) (models.user_id u) then u else r) rs.

Definition flush_dirty (rs : list User) (us : list User) : list User :=
  fold_left (fun acc u => update_row u acc) us rs.

(** [db.query(User).filter(p).first()] *)
Definition db_first (f : Faults) (db : Session) (p : User -> bool)
  : result (option User) :=
  match query_fault f with
  | Some msg => Raise (OperationalError msg)
  | None => Return (find p (rows db))
  end.

Definition db_add (db : Session) (u : User) : Session :=
  mkSession (rows db) (added db ++ [u]) (dirty db).

(** An attribute assignment on a persistent object marks it dirty. *)
Definition db_modify (db : Session) (u : User) : Session :=
  mkSession (rows db) (added db) (dirty db ++ [u]).

(** [db.commit()]: on success the pending changes reach the table; on a
    fault nothing does and the pending state stays until [db.rollback()]. *)
Definition db_commit (f : Faults) (db : Session) : result unit * Session :=
  match commit_fault f with
  | Some msg => (Raise (OperationalError msg), db)
  | None =>
      (Return tt,
       mkSession (flush_added (flush_dirty (rows db) (dirty db)) (added db))
                 [] [])
  end.

(** [db.rollback()] discards what is pending; committed rows stay. *)
Definition db_rollback (db : Session) : Session := mkSession (rows db) [] [].

(** [db.refresh(obj)] for the object inserted last: reload it, now with its
    key, from the table. *)
Definition db_refresh_last (f : Faults) (db : Session) : result User :=
  match refresh_fault f with
  | Some msg => Raise (OperationalError msg)
  | None =>
      match last (rows db) with
      | Some u => Return u
      | None => Raise (OperationalError "instance is not persistent")
      end
  end.

(** Reading an attribute of an object the session has expired, which
    [db.commit()] and [db.rollback()] do to every object: the object is
    loaded again by its primary key.  [user] is the object's committed
    state, the row that load reads back. *)
Definition db_reload (f : Faults) (user : User) : result User :=
  match refresh_fault f with
  | Some msg => Raise (OperationalError msg)
  | None => Return user
  end.

(** ** Encoding and decoding tokens ([jose.jwt]) *)

(** What [json.dumps] can write: everything but a [datetime], also inside
    a list. *)
Fixpoint json_serializable (v : pyval) : bool :=
  match v with
  | PDatetime _ => false
  | PList l => forallb json_serializable l
  | _ => true
  end.

(** [jwt.encode] turns a [datetime] into whole seconds in the claims [exp],
    [iat] and [nbf], and in those only. *)
Definition convert_time_claim (claims : gmap string pyval) (time_claim : string)
  : gmap string pyval :=
  match claims !! time_claim with
  | Some (PDatetime t) => <[time_claim := PInt (timegm t)]> claims
  | _ => claims
  end.

(** [jwt.encode(claims, key, algorithm=alg)]: the time claims are
    converted, then the claims are written as JSON and signed; a [datetime]
    left anywhere else makes [json.dumps] raise [TypeError].  [alg] is
    taken to be an algorithm the library supports. *)
Definition jwt_encode (claims : gmap string pyval) (key alg : string)
  : result token :=
  let claims := fold_left convert_time_claim ["exp"; "iat"; "nbf"] claims in
  if decide (map_Forall (fun _ v => json_serializable v = true) claims) then
    Return (Jws alg key claims)
  else
    Raise (TypeError "Object of type datetime is not JSON serializable").

(** [int(v)] as the decoder applies it to a time claim; [None] stands for
    the claim being refused.  (On a value that is neither a number nor text
    [int] raises [TypeError] rather than [ValueError]; the model reports
    both as the decoder's claims error.) *)
Definition int_of_claim (v : pyval) : option Z :=
  match v with
  | PInt n => Some n
  | PBool b => Some (if b then 1 else 0)
  | PStr s => py_int s
  | _ => None
  end.

Definition is_str (v : pyval) : bool :=
  match v with
  | PStr _ => true
  | _ => false
  end.

(** The decoder's checks of the registered claims.  Each gives [None] when
    the claim is absent or passes, and the text of the error otherwise.  The
    resolver passes no audience, issuer, subject or access token: an [aud]
    or [at_hash] claim is therefore always refused, and [iss] is not looked
    at. *)
Definition check_iat (claims : gmap string pyval) : option string :=
  match claims !! "iat" with
  | Some v =>
      match int_of_claim v with
      | Some _ => None
      | None => Some "Issued At claim (iat) must be an integer."
      end
  | None => None
  end.

Definition check_nbf (claims : gmap string pyval) (now : Z) : option string :=
  match claims !! "nbf" with
  | Some v =>
      match int_of_claim v with
      | Some nbf =>
          if Z.ltb (timegm now) nbf then Some "The token is not yet valid (nbf)"
          else None
      | None => Some "Not Before claim (nbf) must be an integer."
      end
  | None => None
  end.

Definition check_exp (claims : gmap string pyval) (now : Z) : option string :=
  match claims !! "exp" with
  | Some v =>
      match int_of_claim v with
      | Some exp =>
          if Z.ltb exp (timegm now) then Some "Signature has expired."
          else None
      | None => Some "Expiration Time claim (exp) must be an integer."
      end
  | None => None
  end.

Definition check_aud (claims : gmap string pyval) : option string :=
  match claims !! "aud" with
  | Some (PStr _) => Some "Invalid audience"
  | Some (PList l) =>
      if forallb is_str l then Some "Invalid audience"
      else Some "Invalid claim format in token"
  | Some _ => Some "Invalid claim format in token"
  | None => None
  end.

Definition check_sub (claims : gmap string pyval) : option string :=
  match claims !! "sub" with
  | Some v => if is_str v then None else Some "Subject must be a string."
  | None => None
  end.

Definition check_jti (claims : gmap string pyval) : option string :=
  match claims !! "jti" with
  | Some v => if is_str v then None else Some "JWT ID must be a string."
  | None => None
  end.

Definition check_at_hash (claims : gmap string pyval) : option string :=
  match claims !! "at_hash" with
  | Some _ =>
      Some "No access_token provided to compare against at_hash claim."
  | None => None
  end.

Fixpoint first_error (checks : list (option string)) : option string :=
  match checks with
  | [] => None
  | Some msg :: _ => Some msg
  | None :: rest => first_error rest
  end.

(** The checks in the decoder's order. *)
Definition validate_claims (claims : gmap string pyval) (now : Z)
  : option string :=
  first_error
    [check_iat claims; check_nbf claims now; check_exp claims now;
     check_aud claims; check_sub claims; check_jti claims;
     check_at_hash claims].

(** [jwt.decode(token, key, algorithms=algs)] at time [now]: the header,
    the algorithm and the signature first, then the claims. *)
Definition jwt_decode (tok : token) (key : string) (algs : list string)
    (now : Z) : result (gmap string pyval) :=
  match tok with
  | Malformed _ => Raise (JWTError "Error decoding token headers.")
  | Jws alg k claims =>
      if negb (bool_decide (alg ∈ algs)) then
        Raise (JWTError "The specified alg value is not allowed")
      else if negb (String.eqb k key) then
        Raise (JWTError "Signature verification failed.")
      else
        match validate_claims claims now with
        | Some msg => Raise (JWTError msg)
        | None => Return claims
        end
  end.

(** ** [app/api/auth/jwt.py] *)

Section Auth.

(** Process-wide configuration ([core.config.settings]). *)
Variable settings : Settings.

(** The credential hasher ([core.security]); either call may raise. *)
Variable get_password_hash : string -> result string.
Variable verify_password : string -> string -> result bool.

(** What the [TokenData] schema makes of a [user_id] that is not an [int]. *)
Variable TokenData_other : pyval -> result Z.

Definition TokenData (user_id : pyval) : result Z :=
  match user_id with
  | PInt n => Return n
  | v => TokenData_other v
  end.

Definition authenticate_user (f : Faults) (db : Session)
    (username password : string) : option User :=
  match db_first f db (fun u => String.eqb (models.name u) username) with
  | Raise _ => None
  | Return None => None
  | Return (Some user) =>
      match verify_password password (models.password user) with
      | Raise _ => None
      | Return true => Some user
      | Return false => None
      end
  end.

Definition credentials_required : HTTPException :=
  mkHTTPException HTTP_401_UNAUTHORIZED "認証情報が必要です" www_authenticate.
Definition invalid_token : HTTPException :=
  mkHTTPException HTTP_401_UNAUTHORIZED "無効な認証トークンです" www_authenticate.
Definition invalid_token_format : HTTPException :=
  mkHTTPException HTTP_401_UNAUTHORIZED "無効な認証トークン形式です"
    www_authenticate.
Definition user_not_found : HTTPException :=
  mkHTTPException HTTP_401_UNAUTHORIZED "ユーザーが存在しません" www_authenticate.

(** The subject steps of [get_current_user]: [payload.get("sub")], the
    [None] test, and the conversion of a [str] with [int]. *)
Definition coerce_subject (user_id : option pyval) : result pyval :=
  match user_id with
  | None | Some PNone => Raise (HTTP invalid_token)
  | Some (PStr s) =>
      match py_int s with
      | Some n => Return (PInt n)
      | None => Raise (HTTP invalid_token_format)
      end
  | Some v => Return v
  end.

(** The body of the [try] block, whose [JWTError]s the handler rewrites. *)
Definition decode_token_data (tok : token) (now : Z) : result Z :=
  match jwt_decode tok (SECRET_KEY settings) [ALGORITHM settings] now with
  | Raise e => Raise e
  | Return payload =>
      match coerce_subject (payload !! "sub") with
      | Raise e => Raise e
      | Return user_id => TokenData user_id
      end
  end.

Definition get_current_user (f : Faults) (db : Session) (tok : option token)
    (now : Z) : result User :=
  match tok with
  | None => Raise (HTTP credentials_required)
  | Some t =>
      match decode_token_data t now with
      | Raise (JWTError _) => Raise (HTTP invalid_token)
      | Raise e => Raise e
      | Return token_user_id =>
          match db_first f db
                  (fun u => Z.eqb (models.user_id u) token_user_id) with
          | Raise e => Raise e
          | Return None => Raise (HTTP user_not_found)
          | Return (Some user) => Return user
          end
      end
  end.

(** [create_access_token(data, expires_delta)] called at time [now].  A
    [timedelta] is true exactly when it is not zero. *)
Definition to_encode (data : gmap string pyval) (expires_delta : option Z)
    (now : Z) : gmap string pyval :=
  let expire :=
    match expires_delta with
    | Some d =>
        if Z.eqb d 0
        then now + timedelta_minutes (ACCESS_TOKEN_EXPIRE_MINUTES settings)
        else now + d
    | None => now + timedelta_minutes (ACCESS_TOKEN_EXPIRE_MINUTES settings)
    end in
  <["exp" := PDatetime expire]> data.

Definition create_access_token (data : gmap string pyval)
    (expires_delta : option Z) (now : Z) : result token :=
  jwt_encode (to_encode data expires_delta now)
    (SECRET_KEY settings) (ALGORITHM settings).

(** ** [app/api/auth/router.py]

    A handler runs on the request's session and returns its outcome with
    the session it leaves.  It reads the clock twice: [t_login] (or
    [t_created]) stamps the row, [t_token] is the time the issuer sees.  A
    success carries the response body and the headers set on the
    response.

    In the login handlers the commit, or the rollback after a failed
    commit, expires [user]; the next statement, [str(user.user_id)], is
    outside the [try] and loads the object again ([db_reload]). *)

Definition cors_headers : list (string * string) :=
  [("Access-Control-Allow-Origin", "*");
   ("Access-Control-Allow-Credentials", "true")].

Definition login_for_access_token (f : Faults) (db : Session)
    (username password : string) (t_login t_token : Z)
  : result (Token * list (string * string)) * Session :=
  match authenticate_user f db username password with
  | None =>
      (Raise (HTTP (mkHTTPException HTTP_401_UNAUTHORIZED
                      "ユーザー名またはパスワードが無効です" www_authenticate)),
       db)
  | Some user =>
      let '(user, db) :=
        match db_commit f (db_modify db (set_last_login_at t_login user)) with
        | (Return _, db') => (set_last_login_at t_login user, db')
        | (Raise _, db') => (user, db_rollback db')
        end in
      let access_token_expires :=
        timedelta_minutes (ACCESS_TOKEN_EXPIRE_MINUTES settings) in
      match db_reload f user with
      | Raise e => (Raise e, db)
      | Return user =>
          match create_access_token
                  {["sub" := PStr (py_str (models.user_id user))]}
                  (Some access_token_expires) t_token with
          | Raise e => (Raise e, db)
          | Return access_token =>
              (Return (schemas.mkToken access_token "bearer"
                         (models.user_id user) (models.name user),
                       cors_headers),
               db)
          end
      end
  end.

Definition login (f : Faults) (db : Session)
    (username password : string) (t_login t_token : Z)
  : result (Token * list (string * string)) * Session :=
  match authenticate_user f db username password with
  | None =>
      (Raise (HTTP (mkHTTPException HTTP_401_UNAUTHORIZED
                      "ユーザー名またはパスワードが無効です" [])),
       db)
  | Some user =>
      let '(user, db) :=
        match db_commit f (db_modify db (set_last_login_at t_login user)) with
        | (Return _, db') => (set_last_login_at t_login user, db')
        | (Raise _, db') => (user, db_rollback db')
        end in
      let access_token_expires :=
        timedelta_minutes (ACCESS_TOKEN_EXPIRE_MINUTES settings) in
      match db_reload f user with
      | Raise e => (Raise e, db)
      | Return user =>
          match create_access_token
                  {["sub" := PStr (py_str (models.user_id user))]}
                  (Some access_token_expires) t_token with
          | Raise e => (Raise e, db)
          | Return access_token =>
              (Return (schemas.mkToken access_token "bearer"
                         (models.user_id user) (models.name user),
                       cors_headers),
               db)
          end
      end
  end.

(** [User(name=..., password=..., categories=..., point_total=0,
    last_login_at=...)]: a transient object; its key is assigned when the
    row is inserted (the placeholder [0] stands for the unset key). *)
Definition new_user (user_data : UserCreate) (hashed : string) (t_created : Z)
  : User :=
  models.mkUser 0 (schemas.name user_data) hashed
    (match schemas.categories user_data with
     | [] => ""
     | _ :: _ => join "," (schemas.categories user_data)
     end)
    0 (Some t_created).

Definition register_user (f : Faults) (db : Session) (user_data : UserCreate)
    (t_created t_token : Z)
  : result (Token * list (string * string)) * Session :=
  if negb (String.eqb (schemas.password user_data)
                      (schemas.confirm_password user_data)) then
    (Raise (HTTP (mkHTTPException HTTP_400_BAD_REQUEST
                    "パスワードが一致しません" [])), db)
  else
    match db_first f db
            (fun u => String.eqb (models.name u) (schemas.name user_data)) with
    | Raise e => (Raise e, db)
    | Return (Some _) =>
        (Raise (HTTP (mkHTTPException HTTP_400_BAD_REQUEST
                        "このユーザー名は既に使用されています" [])), db)
    | Return None =>
        let attempt : result (Token * list (string * string)) * Session :=
          match get_password_hash (schemas.password user_data) with
          | Raise e => (Raise e, db)
          | Return hashed =>
              let user := new_user user_data hashed t_created in
              match db_commit f (db_add db user) with
              | (Raise e, db') => (Raise e, db')
              | (Return _, db') =>
                  match db_refresh_last f db' with
                  | Raise e => (Raise e, db')
                  | Return user =>
                      let access_token_expires :=
                        timedelta_minutes
                          (ACCESS_TOKEN_EXPIRE_MINUTES settings) in
                      match create_access_token
                              {["sub" := PStr (py_str (models.user_id user))]}
                              (Some access_token_expires) t_token with
                      | Raise e => (Raise e, db')
                      | Return access_token =>
                          (Return (schemas.mkToken access_token "bearer"
                                     (models.user_id user) (models.name user),
                                   cors_headers),
                           db')
                      end
                  end
              end
          end in
        match attempt with
        | (Return r, db') => (Return r, db')
        | (Raise e, db') =>
            (Raise (HTTP (mkHTTPException HTTP_500_INTERNAL_SERVER_ERROR
                            ("ユーザー登録中にエラーが発生しました: " ++ exn_str e)
                            [])),
             db_rollback db')
        end
    end.

End Auth.

(** A request starts on a session with nothing pending. *)
Definition fresh (rs : list User) : Session := mkSession rs [] [].

(** ** [app/core/database.py] *)

(** The fields of [settings] the database module reads. *)
Record DatabaseSettings : Type := mkDatabaseSettings {
  USE_AZURE : bool;
  AZURE_MYSQL_SSL_MODE : string;
  SQLALCHEMY_DATABASE_URL : string;
  DEBUG : bool
}.

(** [str.lower()] on ASCII text. *)
Definition ascii_lower (c : ascii) : ascii :=
  let n := N_of_ascii c in
  if (N.leb 65 n && N.leb n 90)%bool then ascii_of_N (n + 32) else c.

Fixpoint lower (s : string) : string :=
  match s with
  | EmptyString => EmptyString
  | String c r => String (ascii_lower c) (lower r)
  end.

(** [needle in hay] for two strings. *)
Fixpoint contains (needle hay : string) : bool :=
  (String.prefix needle hay
   || match hay with
      | EmptyString => false
      | String _ r => contains needle r
      end)%bool.

(** A value of the [connect_args] dictionary: a flag or the [ssl] options. *)
Inductive connect_arg : Type :=
| ArgBool (b : bool)
| ArgDict (d : gmap string pyval).

(** [get_db_connect_args()]; [cert_exists] is what
    [os.path.exists("DigiCertGlobalRootCA.crt.pem")] answers. *)
Definition get_db_connect_args (settings : DatabaseSettings)
    (cert_exists : bool) : gmap string connect_arg :=
  if USE_AZURE settings then
    let ssl_mode := lower (AZURE_MYSQL_SSL_MODE settings) in
    if String.eqb ssl_mode "require" then
      if cert_exists then
        {["ssl" := ArgDict {["ssl_ca" := PStr "DigiCertGlobalRootCA.crt.pem"]}]}
      else
        {["ssl" := ArgDict {["ssl_verify_cert" := PBool false]}]}
    else ∅
  else if contains "sqlite" (SQLALCHEMY_DATABASE_URL settings) then
    {["check_same_thread" := ArgBool false]}
  else ∅.

(** [Session.close()]: the connection is released and whatever is still
    pending is discarded. *)
Definition db_close (db : Session) : Session := mkSession (rows db) [] [].

(** [get_db()] around an endpoint: a new session on the table, the endpoint,
    and [db.close()] in the [finally] branch, on every way out. *)
Definition get_db {A : Type} (table : list User)
    (endpoint : Session -> result A * Session) : result A * Session :=
  let db := fresh table in
  let '(r, db') := endpoint db in
  (r, db_close db').

(** The issuer's contract [issue(identityKey, ttl)], the way the handlers
    call [create_access_token]: the claims are [{"sub": str(key)}]. *)
Definition issue (settings : Settings) (identity_key : Z)
    (ttl : option Z) (now : Z) : result token :=
  create_access_token settings
    {["sub" := PStr (py_str identity_key)]} ttl now.

(** ** A concrete deployment, used to run the definitions *)

Module Demo.

Definition settings : Settings := mkSettings "s3cret" "HS256" 30.

Definition get_password_hash (p : string) : result string :=
  Return ("hash:" ++ p).

Definition verify_password (plain hashed : string) : result bool :=
  Return (String.eqb hashed ("hash:" ++ plain)).

Definition TokenData_other (v : pyval) : result Z :=
  Raise (ValidationError "value is not a valid integer").

Definition alice : User :=
  models.mkUser 1 "alice" "hash:secret" "x" 0 (Some 0).

Definition bob : User :=
  models.mkUser 2 "bob" "hash:hunter2" "" 0 None.

Definition table : list User := [alice; bob].

Definition commit_down : Faults := mkFaults None (Some "server has gone away") None.
Definition refresh_down : Faults := mkFaults None None (Some "server has gone away").
Definition query_down : Faults := mkFaults (Some "server has gone away") None None.

Definition alice_form : UserCreate :=
  schemas.mkUserCreate "alice" "secret" "secret" ["x"].

Definition carol_form : UserCreate :=
  schemas.mkUserCreate "carol" "pw" "pw" ["puzzle"; "quiz"].

End Demo.

(** Sample database settings. *)
Module DemoDb.

Definition azure : DatabaseSettings :=
  mkDatabaseSettings true "REQUIRE" "mysql+pymysql://app@db/collab" false.

Definition local_sqlite : DatabaseSettings :=
  mkDatabaseSettings false "" "sqlite:///./collab.db" true.

End DemoDb.

(** ** Auxiliary definitions for the proofs *)

(** What the login [UPDATE] does to one row: the row with key [k] gets the
    login time, every other row stays. *)
Definition stamp_row (k t : Z) (r : User) : User :=
  if Z.eqb (models.user_id r) k then set_last_login_at t r else r.


(** The value of a digit sequence read left to right after [acc]. *)
Fixpoint uint_val (d : uint) (acc : Z) : Z :=
  match d with
  | Nil => acc
  | D0 d => uint_val d (10 * acc)
  | D1 d => uint_val d (10 * acc + 1)
  | D2 d => uint_val d (10 * acc + 2)
  | D3 d => uint_val d (10 * acc + 3)
  | D4 d => uint_val d (10 * acc + 4)
  | D5 d => uint_val d (10 * acc + 5)
  | D6 d => uint_val d (10 * acc + 6)
  | D7 d => uint_val d (10 * acc + 7)
  | D8 d => uint_val d (10 * acc + 8)
  | D9 d => uint_val d (10 * acc + 9)
  end.

Fixpoint no_space (s : string) : bool :=
  match s with
  | EmptyString => true
  | String c r => negb (is_space c) && no_space r
  end.

(** The row a successful registration inserts. *)
Definition created_user (rs : list User) (user_data : UserCreate)
    (hashed : string) (t_created : Z) : User :=
  models.mkUser (next_user_id rs) (schemas.name user_data) hashed
    (join "," (schemas.categories user_data)) 0 (Some t_created).

(** A response body and a user identify each other: the literal token
    type, the user's key and name, and a token signed with the configured
    key whose subject claim is the decimal text of that same key. *)
Definition self_consistent (settings : Settings) (r : Token) (u : User) : Prop :=
  schemas.token_type r = "bearer"
  /\ schemas.user_id r = models.user_id u
  /\ schemas.user_name r = models.name u
  /\ exists claims,
       schemas.access_token r
       = Jws (ALGORITHM settings) (SECRET_KEY settings) claims
       /\ claims !! "sub" = Some (PStr (py_str (schemas.user_id r)))
       /\ coerce_subject (claims !! "sub") = Return (PInt (models.user_id u)).

(** How [jwt.encode] writes one claim: a [datetime] under [exp], [iat] or
    [nbf] as whole seconds, everything else as it is. *)
Definition time_json (v : pyval) : pyval :=
  match v with
  | PDatetime t => PInt (timegm t)
  | _ => v
  end.

Definition encoded_claim (key : string) (v : pyval) : pyval :=
  if bool_decide (key ∈ ["exp"; "iat"; "nbf"]) then time_json v else v.

(** The token the handlers hand out for key [k] when the issuer's clock
    reads [now]: subject [str(k)], expiry the configured duration later. *)
Definition handler_token (settings : Settings) (k now : Z) : token :=
  Jws (ALGORITHM settings) (SECRET_KEY settings)
    (<["exp" := PInt (timegm (now + timedelta_minutes
                                      (ACCESS_TOKEN_EXPIRE_MINUTES settings)))]>
       {["sub" := PStr (py_str k)]}).

(** * Properties *)

(** ** Text conversions *)

Section TextFacts.

Lemma int_digits_string_of_uint (d : uint) (acc : Z) :
  int_digits (NilEmpty.string_of_uint d) acc = Some (uint_val d acc).
Proof.
  revert acc; induction d; intros acc; simpl; try reflexivity;
    rewrite IHd; do 2 f_equal; lia.
Qed.

Lemma uint_val_of_lu (d : uint) (acc : Z) :
  uint_val d acc =
  Z.of_N (DecimalPos.Unsigned.of_lu (Decimal.rev d)) + acc * 10 ^ Z.of_N (DecimalPos.Unsigned.usize d).
Proof.
  revert acc; induction d; intros acc; simpl uint_val;
    [ simpl; lia | .. ];
    unfold Decimal.rev; simpl Decimal.revapp;
    rewrite DecimalPos.Unsigned.of_lu_revapp, IHd;
    simpl DecimalPos.Unsigned.usize; simpl DecimalPos.Unsigned.of_lu;
    rewrite N2Z.inj_succ, Z.pow_succ_r by lia;
    rewrite N2Z.inj_add, N2Z.inj_mul, N2Z.inj_pow; simpl Z.of_N; lia.
Qed.

Lemma uint_val_to_uint (p : positive) : uint_val (Pos.to_uint p) 0 = Z.pos p.
Proof.
  rewrite uint_val_of_lu, <- DecimalPos.Unsigned.of_uint_alt, DecimalPos.Unsigned.of_to.
  simpl. lia.
Qed.

Lemma string_rev_app_twice (s a b : string) :
  string_rev_app (string_rev_app s a) b = string_rev_app a (s ++ b).
Proof.
  revert a b; induction s as [|c r IH]; intros a b; simpl; [reflexivity|].
  rewrite IH. reflexivity.
Qed.

Lemma string_app_empty (s : string) : s ++ EmptyString = s.
Proof.
  induction s as [|c r IH]; [reflexivity|].
  change (String c (r ++ EmptyString) = String c r). now rewrite IH.
Qed.

Lemma string_rev_involutive (s : string) : string_rev (string_rev s) = s.
Proof.
  unfold string_rev. rewrite string_rev_app_twice. simpl.
  apply string_app_empty.
Qed.

Lemma no_space_rev_app (s a : string) :
  no_space (string_rev_app s a) = no_space s && no_space a.
Proof.
  revert a; induction s as [|c r IH]; intros a; simpl; [reflexivity|].
  rewrite IH. simpl. destruct (is_space c), (no_space r), (no_space a);
    reflexivity.
Qed.

Lemma lstrip_no_space (s : string) : no_space s = true -> lstrip s = s.
Proof.
  destruct s as [|c r]; simpl; [reflexivity|].
  destruct (is_space c); [discriminate | reflexivity].
Qed.

Lemma strip_no_space (s : string) : no_space s = true -> strip s = s.
Proof.
  intros H. unfold strip.
  rewrite (lstrip_no_space s H).
  rewrite lstrip_no_space; [apply string_rev_involutive|].
  unfold string_rev. rewrite no_space_rev_app, H. reflexivity.
Qed.

Lemma no_space_string_of_uint (d : uint) :
  no_space (NilEmpty.string_of_uint d) = true.
Proof. induction d; simpl; auto. Qed.

Lemma int_unsigned_string_of_uint (d : uint) :
  d <> Nil ->
  int_unsigned (NilEmpty.string_of_uint d) = Some (uint_val d 0).
Proof.
  destruct d; intros Hd; [congruence | ..]; simpl;
    rewrite int_digits_string_of_uint; reflexivity.
Qed.

Lemma int_ascii_string_of_uint (d : uint) :
  d <> Nil -> int_ascii (NilEmpty.string_of_uint d) = Some (uint_val d 0).
Proof.
  intros Hd. unfold int_ascii.
  rewrite (strip_no_space _ (no_space_string_of_uint d)).
  rewrite <- (int_unsigned_string_of_uint d Hd).
  destruct d; [congruence | ..]; reflexivity.
Qed.

Lemma is_ascii_text_string_of_uint (d : uint) :
  is_ascii_text (NilEmpty.string_of_uint d) = true.
Proof. induction d; simpl; auto. Qed.

Lemma py_int_ascii (s : string) :
  is_ascii_text s = true -> py_int s = int_ascii s.
Proof. intros H. unfold py_int. now rewrite H. Qed.

(** [int(str(n)) == n] for every integer [n]. *)
Lemma py_int_py_str (n : Z) : py_int (py_str n) = Some n.
Proof.
  destruct n as [|p|p]; [reflexivity | ..]; unfold py_str; simpl Z.to_int.
  - pose proof (DecimalPos.Unsigned.to_uint_nonnil p) as Hp.
    unfold NilZero.string_of_int, NilZero.string_of_uint.
    destruct (Pos.to_uint p) eqn:E; [congruence | ..];
      rewrite <- E in *;
      rewrite py_int_ascii by apply is_ascii_text_string_of_uint;
      rewrite int_ascii_string_of_uint by assumption;
      rewrite uint_val_to_uint; reflexivity.
  - pose proof (DecimalPos.Unsigned.to_uint_nonnil p) as Hp.
    unfold NilZero.string_of_int, NilZero.string_of_uint.
    assert (Hs : String "-" (NilEmpty.string_of_uint (Pos.to_uint p)) =
                 String "-" (match Pos.to_uint p with
                             | Nil => "0"
                             | _ => NilEmpty.string_of_uint (Pos.to_uint p)
                             end)).
    { destruct (Pos.to_uint p); [congruence | ..]; reflexivity. }
    rewrite <- Hs.
    rewrite py_int_ascii by (simpl; apply is_ascii_text_string_of_uint).
    unfold int_ascii.
    rewrite strip_no_space
      by (simpl; apply no_space_string_of_uint).
    simpl. rewrite int_unsigned_string_of_uint by assumption.
    rewrite uint_val_to_uint. reflexivity.
Qed.

End TextFacts.

Example py_int_42 : py_int "42" = Some 42.
Proof. reflexivity. Qed.
Example py_int_spaces : py_int "  -7 " = Some (-7).
Proof. reflexivity. Qed.
Example py_int_underscore : py_int "1_000" = Some 1000.
Proof. reflexivity. Qed.
Example py_int_alice : py_int "alice" = None.
Proof. reflexivity. Qed.
Example py_int_double_sign : py_int "+-5" = None.
Proof. reflexivity. Qed.
Example py_int_fullwidth : py_int "１２" = Some 12.
Proof. reflexivity. Qed.
Example py_int_arabic_indic : py_int "١٢٣" = Some 123.
Proof. reflexivity. Qed.
Example py_int_no_break_space : py_int " 12" = Some 12.
Proof. reflexivity. Qed.
Example py_int_file_separator :
  py_int (String (ascii_of_N 28) "2") = None.
Proof. reflexivity. Qed.
Example py_str_neg : py_str (-305) = "-305".
Proof. reflexivity. Qed.
Example join_two : join "," ["puzzle"; "quiz"] = "puzzle,quiz".
Proof. reflexivity. Qed.

(** ** Running the handlers on the sample deployment *)

Example demo_login_ok :
  exists tok, login Demo.settings Demo.verify_password no_faults
    (fresh Demo.table) "alice" "secret" 5000000 6000000
  = (Return (schemas.mkToken tok "bearer" 1 "alice", cors_headers),
     fresh [set_last_login_at 5000000 Demo.alice; Demo.bob]).
Proof. eexists. vm_compute. reflexivity. Qed.

Example demo_resolve_ok :
  exists tok,
    issue Demo.settings 2 (Some 1000000) 0 = Return tok
    /\ get_current_user Demo.settings Demo.TokenData_other no_faults
         (fresh Demo.table) (Some tok) 999999
       = Return Demo.bob.
Proof. eexists. split; [vm_compute; reflexivity | vm_compute; reflexivity]. Qed.

Example demo_resolve_expired :
  exists tok,
    issue Demo.settings 2 (Some 1000000) 0 = Return tok
    /\ get_current_user Demo.settings Demo.TokenData_other no_faults
         (fresh Demo.table) (Some tok) 2000000
       = Raise (HTTP invalid_token).
Proof. eexists. split; [vm_compute; reflexivity | vm_compute; reflexivity]. Qed.

(** The login's commit fails and the database stays away: the reload of the
    expired [user] raises, outside the handler's [try]. *)
Example demo_login_database_gone :
  login Demo.settings Demo.verify_password
    (mkFaults None (Some "server has gone away") (Some "server has gone away"))
    (fresh Demo.table) "alice" "secret" 5000000 6000000
  = (Raise (OperationalError "server has gone away"), fresh Demo.table).
Proof. vm_compute. reflexivity. Qed.

Example demo_register_ok :
  exists tok, register_user Demo.settings Demo.get_password_hash no_faults
    (fresh Demo.table) Demo.carol_form 7000000 7000001
  = (Return (schemas.mkToken tok "bearer" 3 "carol", cors_headers),
     fresh (Demo.table ++
            [models.mkUser 3 "carol" "hash:pw" "puzzle,quiz" 0 (Some 7000000)])).
Proof. eexists. vm_compute. reflexivity. Qed.

Example demo_register_duplicate :
  register_user Demo.settings Demo.get_password_hash no_faults
    (fresh Demo.table) Demo.alice_form 7000000 7000001
  = (Raise (HTTP (mkHTTPException 400 "このユーザー名は既に使用されています" [])),
     fresh Demo.table).
Proof. vm_compute. reflexivity. Qed.

Example demo_register_mismatch :
  register_user Demo.settings Demo.get_password_hash no_faults
    (fresh []) (schemas.mkUserCreate "alice" "p1" "p2" []) 7000000 7000001
  = (Raise (HTTP (mkHTTPException 400 "パスワードが一致しません" [])), fresh []).
Proof. vm_compute. reflexivity. Qed.

Example demo_register_commit_fault :
  register_user Demo.settings Demo.get_password_hash Demo.commit_down
    (fresh Demo.table) Demo.carol_form 7000000 7000001
  = (Raise (HTTP (mkHTTPException 500
                    "ユーザー登録中にエラーが発生しました: server has gone away" [])),
     fresh Demo.table).
Proof. vm_compute. reflexivity. Qed.

(** Register alice on an empty table, log her in, resolve the login token. *)
Example demo_end_to_end :
  exists tok1 tok2 db1 db2,
    register_user Demo.settings Demo.get_password_hash no_faults
      (fresh []) Demo.alice_form 1000000 1000001
    = (Return (schemas.mkToken tok1 "bearer" 1 "alice", cors_headers), db1)
    /\ login Demo.settings Demo.verify_password no_faults
         (fresh (rows db1)) "alice" "secret" 2000000 2000001
       = (Return (schemas.mkToken tok2 "bearer" 1 "alice", cors_headers), db2)
    /\ get_current_user Demo.settings Demo.TokenData_other no_faults
         (fresh (rows db2)) (Some tok2) 3000000
       = Return (set_last_login_at 2000000
                   (models.mkUser 1 "alice" "hash:secret" "x" 0 (Some 1000000))).
Proof.
  do 4 eexists. split; [vm_compute; reflexivity|].
  split; [vm_compute; reflexivity|]. vm_compute. reflexivity.
Qed.

(** ** Credential authenticator *)

Section Authenticator.

Variable verify_password : string -> string -> result bool.

Lemma find_name_spec (rs : list User) (username : string) (user : User) :
  find (fun u => String.eqb (models.name u) username) rs = Some user ->
  In user rs /\ models.name user = username.
Proof.
  intros H. apply find_some in H as [Hin Heq].
  split; [assumption|]. now apply String.eqb_eq.
Qed.

(** C6 -- [authenticate_user] always returns: it gives the user exactly
    when the lookup works, the first row with that exact name exists and
    the password verifies against that row's stored hash; it gives absent
    exactly in the remaining cases (lookup fault, no such row,
    verification false or raising), and it never raises. *)
Theorem authenticate_user_total (f : Faults) (db : Session)
    (username password : string) :
  (forall user,
      authenticate_user verify_password f db username password = Some user
      <-> (query_fault f = None
           /\ find (fun u => String.eqb (models.name u) username) (rows db)
              = Some user
           /\ verify_password password (models.password user) = Return true))
  /\ (forall user,
         authenticate_user verify_password f db username password = Some user
         -> In user (rows db) /\ models.name user = username)
  /\ (authenticate_user verify_password f db username password = None
      <-> (query_fault f <> None
           \/ find (fun u => String.eqb (models.name u) username) (rows db)
              = None
           \/ exists user,
               find (fun u => String.eqb (models.name u) username) (rows db)
               = Some user
               /\ verify_password password (models.password user)
                  <> Return true)).
Proof.
  unfold authenticate_user, db_first.
  destruct (query_fault f) as [msg|] eqn:Hq.
  - split; [|split].
    + intros user; split; [discriminate | intros (H & _); discriminate].
    + discriminate.
    + split; [intros _; left; discriminate | reflexivity].
  - destruct (find _ (rows db)) as [u|] eqn:Hfind.
    + destruct (verify_password password (models.password u))
        as [[|]|e] eqn:Hv.
      * split; [|split].
        -- intros user; split.
           ++ intros [= <-]. auto.
           ++ intros (_ & [= <-] & _). reflexivity.
        -- intros user [= <-]. now apply find_name_spec.
        -- split; [discriminate|].
           intros [H | [H | (user & [= <-] & H)]]; congruence.
      * split; [|split].
        -- intros user; split; [discriminate|].
           intros (_ & [= <-] & H). congruence.
        -- discriminate.
        -- split; [|reflexivity]. intros _. right; right.
           exists u; split; [reflexivity | congruence].
      * split; [|split].
        -- intros user; split; [discriminate|].
           intros (_ & [= <-] & H). congruence.
        -- discriminate.
        -- split; [|reflexivity]. intros _. right; right.
           exists u; split; [reflexivity | congruence].
    + split; [|split].
      * intros user; split; [discriminate | intros (_ & H & _); discriminate].
      * discriminate.
      * split; [intros _; right; left; reflexivity | reflexivity].
Qed.

End Authenticator.

(** The witness of C6: the sample table, right and wrong password, and a
    lookup fault. *)
Lemma authenticate_user_total_witness :
  authenticate_user Demo.verify_password no_faults (fresh Demo.table)
    "alice" "secret" = Some Demo.alice
  /\ authenticate_user Demo.verify_password Demo.query_down (fresh Demo.table)
       "alice" "secret" = None.
Proof.
  destruct (authenticate_user_total Demo.verify_password no_faults
              (fresh Demo.table) "alice" "secret") as (H1 & _ & _).
  destruct (authenticate_user_total Demo.verify_password Demo.query_down
              (fresh Demo.table) "alice" "secret") as (_ & _ & H3).
  split.
  - apply H1. repeat split; reflexivity.
  - apply H3. left. discriminate.
Defined.

(** ** Subject coercion *)

Section Coercion.

Lemma error_kind_invalid_token : error_kind invalid_token = Some InvalidToken.
Proof. reflexivity. Qed.




Lemma fails_with_inv {A} (h : HTTPException) (k : ErrorKind) :
  fails_with (A := A) (Raise (HTTP h)) k -> error_kind h = Some k.
Proof. intros (h' & [= <-] & Hk). exact Hk. Qed.

Lemma fails_with_intro {A} (h : HTTPException) (k : ErrorKind) :
  error_kind h = Some k -> fails_with (A := A) (Raise (HTTP h)) k.
Proof. intros Hk. exists h. split; [reflexivity | exact Hk]. Qed.

Lemma fails_with_not_return {A} (a : A) (k : ErrorKind) :
  ~ fails_with (Return a) k.
Proof. intros (h & Hr & _). discriminate. Qed.

End Coercion.

(** ** Token issuer *)

Section Issuer.

Variable settings : Settings.

Lemma to_encode_given (data : gmap string pyval) (d now : Z) :
  d <> 0 ->
  to_encode settings data (Some d) now = <["exp" := PDatetime (now + d)]> data.
Proof.
  intros Hd. unfold to_encode.
  destruct (Z.eqb_spec d 0); [contradiction | reflexivity].
Qed.

Lemma to_encode_default (data : gmap string pyval) (now : Z) :
  to_encode settings data None now =
  <["exp" := PDatetime
               (now + timedelta_minutes (ACCESS_TOKEN_EXPIRE_MINUTES settings))]>
    data.
Proof. reflexivity. Qed.

Lemma to_encode_zero (data : gmap string pyval) (now : Z) :
  to_encode settings data (Some 0) now = to_encode settings data None now.
Proof. reflexivity. Qed.

Lemma jwt_encode_sub_exp (k expire : Z) (key alg : string) :
  jwt_encode (<["exp" := PDatetime expire]> {["sub" := PStr (py_str k)]})
    key alg
  = Return (Jws alg key
              (<["exp" := PInt (timegm expire)]> {["sub" := PStr (py_str k)]})).
Proof.
  unfold jwt_encode.
  assert (Hc : fold_left convert_time_claim ["exp"; "iat"; "nbf"]
                 (<["exp" := PDatetime expire]> {["sub" := PStr (py_str k)]})
               = <["exp" := PInt (timegm expire)]>
                   {["sub" := PStr (py_str k)]}) by reflexivity.
  rewrite Hc. destruct (decide _) as [_ | Hn]; [reflexivity|].
  exfalso. apply Hn. apply map_Forall_insert_2; [reflexivity|].
  apply map_Forall_singleton. reflexivity.
Qed.

Lemma issue_given (k now d : Z) :
  d <> 0 ->
  issue settings k (Some d) now
  = Return (Jws (ALGORITHM settings) (SECRET_KEY settings)
              (<["exp" := PInt (timegm (now + d))]>
                 {["sub" := PStr (py_str k)]})).
Proof.
  intros Hd. unfold issue, create_access_token.
  rewrite to_encode_given by assumption. apply jwt_encode_sub_exp.
Qed.

Lemma issue_default (k now : Z) :
  issue settings k None now
  = Return (Jws (ALGORITHM settings) (SECRET_KEY settings)
              (<["exp" := PInt (timegm (now + timedelta_minutes
                                                (ACCESS_TOKEN_EXPIRE_MINUTES
                                                   settings)))]>
                 {["sub" := PStr (py_str k)]})).
Proof.
  unfold issue, create_access_token.
  rewrite to_encode_default. apply jwt_encode_sub_exp.
Qed.

Lemma issue_zero (k now : Z) :
  issue settings k (Some 0) now = issue settings k None now.
Proof. unfold issue, create_access_token. now rewrite to_encode_zero. Qed.

(** C8, as the code has it -- the issued token carries exactly the subject
    [str(key)] and an expiry: the whole seconds of the current time plus
    the TTL when a TTL other than zero is given, and of the current time
    plus [ACCESS_TOKEN_EXPIRE_MINUTES] when no TTL is given or the TTL is
    the zero duration.  The issuer is a function of its inputs, the clock
    and the configuration only. *)
Theorem issue_claims (k now : Z) :
  (forall d, d <> 0 ->
     issue settings k (Some d) now
     = Return (Jws (ALGORITHM settings) (SECRET_KEY settings)
                 (<["exp" := PInt (timegm (now + d))]>
                    {["sub" := PStr (py_str k)]})))
  /\ issue settings k None now
     = Return (Jws (ALGORITHM settings) (SECRET_KEY settings)
                 (<["exp" := PInt (timegm (now + timedelta_minutes
                                                   (ACCESS_TOKEN_EXPIRE_MINUTES
                                                      settings)))]>
                    {["sub" := PStr (py_str k)]}))
  /\ issue settings k (Some 0) now = issue settings k None now.
Proof.
  split; [|split].
  - intros d Hd. now apply issue_given.
  - apply issue_default.
  - apply issue_zero.
Qed.

End Issuer.

(** The witness of C8: a token for key 7 with a TTL of ninety seconds. *)
Lemma issue_claims_witness :
  issue Demo.settings 7 (Some 90000000) 1000000
  = Return (Jws "HS256" "s3cret"
              (<["exp" := PInt 91]> {["sub" := PStr "7"]})).
Proof.
  destruct (issue_claims Demo.settings 7 1000000) as (H & _ & _).
  rewrite (H 90000000); [reflexivity | discriminate].
Defined.

(** C8, as the claim states it, fails at the zero TTL: with thirty minutes
    configured, the token issued at time 0 expires at second 1800, not at
    the current time plus zero. *)
Lemma issue_zero_ttl_uses_default :
  exists claims,
    issue Demo.settings 1 (Some 0) 0 = Return (Jws "HS256" "s3cret" claims)
    /\ claims !! "sub" = Some (PStr "1")
    /\ claims !! "exp" = Some (PInt 1800)
    /\ claims !! "exp" <> Some (PInt (timegm (0 + 0))).
Proof.
  eexists. split; [vm_compute; reflexivity|].
  split; [reflexivity|]. split; [reflexivity|]. vm_compute. discriminate.
Qed.

(** ** Identity resolver *)

Section Resolver.

Variable settings : Settings.
Variable TokenData_other : pyval -> result Z.



Lemma jwt_decode_raises (tok : token) (key : string) (algs : list string)
    (now : Z) (e : exn) :
  jwt_decode tok key algs now = Raise e -> exists msg, e = JWTError msg.
Proof.
  unfold jwt_decode. destruct tok as [alg k claims | s].
  - destruct (negb (bool_decide (alg ∈ algs))); [intros [= <-]; eauto|].
    destruct (negb (String.eqb k key)); [intros [= <-]; eauto|].
    destruct (validate_claims claims now);
      [intros [= <-]; eauto | discriminate].
  - intros [= <-]; eauto.
Qed.

Lemma find_user_id_spec (rs : list User) (k : Z) (user : User) :
  find (fun u => Z.eqb (models.user_id u) k) rs = Some user ->
  In user rs /\ models.user_id user = k.
Proof.
  intros H. apply find_some in H as [Hin Heq].
  split; [assumption | now apply Z.eqb_eq].
Qed.


Lemma find_user_id_exists (rs : list User) (k : Z) (u : User) :
  In u rs -> models.user_id u = k ->
  exists user, find (fun u => Z.eqb (models.user_id u) k) rs = Some user.
Proof.
  intros Hin Hk. destruct (find _ rs) as [user|] eqn:Hf; [eauto|].
  apply (find_none _ _ Hf) in Hin. apply Z.eqb_neq in Hin. contradiction.
Qed.


End Resolver.


(** ** Issue, then resolve *)

Section RoundTrip.

Variable settings : Settings.
Variable TokenData_other : pyval -> result Z.

Lemma timegm_mono (a b : Z) : a <= b -> timegm a <= timegm b.
Proof. intros H. unfold timegm. apply Z.div_le_mono; lia. Qed.

Lemma timegm_second_earlier (a b : Z) :
  a <= b + timedelta_seconds (-1) -> timegm a < timegm b.
Proof.
  intros H. apply timegm_mono in H. unfold timegm, timedelta_seconds in *.
  replace (b + -1 * 1000000) with (b + (-1) * 1000000) in H by lia.
  rewrite Z.div_add in H by lia. lia.
Qed.

Lemma validate_claims_sub_exp (k e now : Z) :
  validate_claims (<["exp" := PInt e]> {["sub" := PStr (py_str k)]}) now
  = if Z.ltb e (timegm now) then Some "Signature has expired." else None.
Proof.
  unfold validate_claims, check_iat, check_nbf, check_exp, check_aud,
    check_sub, check_jti, check_at_hash.
  rewrite lookup_insert_eq.
  rewrite !lookup_insert_ne by discriminate.
  rewrite lookup_singleton_eq.
  rewrite !lookup_singleton_ne by discriminate.
  simpl. destruct (Z.ltb e (timegm now)); reflexivity.
Qed.

(** Decoding a freshly signed subject-and-expiry token with the signing
    key: the claims come back unless the expiry second has passed. *)
Lemma jwt_decode_signed (k e now : Z) :
  jwt_decode
    (Jws (ALGORITHM settings) (SECRET_KEY settings)
       (<["exp" := PInt e]> {["sub" := PStr (py_str k)]}))
    (SECRET_KEY settings) [ALGORITHM settings] now
  = if Z.ltb e (timegm now) then Raise (JWTError "Signature has expired.")
    else Return (<["exp" := PInt e]> {["sub" := PStr (py_str k)]}).
Proof.
  unfold jwt_decode.
  rewrite bool_decide_eq_true_2 by (apply list_elem_of_In; now left).
  rewrite String.eqb_refl. simpl negb. cbv iota.
  rewrite validate_claims_sub_exp.
  destruct (Z.ltb e (timegm now)); reflexivity.
Qed.

Lemma decode_token_data_signed (k e now : Z) :
  decode_token_data settings TokenData_other
    (Jws (ALGORITHM settings) (SECRET_KEY settings)
       (<["exp" := PInt e]> {["sub" := PStr (py_str k)]})) now
  = if Z.ltb e (timegm now) then Raise (JWTError "Signature has expired.")
    else Return k.
Proof.
  unfold decode_token_data. rewrite jwt_decode_signed.
  destruct (Z.ltb e (timegm now)); [reflexivity|].
  rewrite lookup_insert_ne by discriminate.
  rewrite lookup_singleton_eq. simpl. rewrite py_int_py_str. reflexivity.
Qed.

(** C1, as the code has it -- issuing for key [k] with TTL [ttl] gives a
    token.  It resolves to the stored user with key [k] as long as the TTL
    has not run out at resolution time (the lookup working; a zero TTL
    stands for the configured duration, taken not negative).  A token
    issued with a TTL of minus one second or less never resolves: it fails
    [InvalidToken]. *)
Theorem resolve_issue_round_trip (f : Faults) (rs : list User)
    (k ttl t_issue t_resolve : Z) :
  exists tok,
    issue settings k (Some ttl) t_issue = Return tok
    /\ (query_fault f = None ->
        (exists u, In u rs /\ models.user_id u = k) ->
        t_resolve <= t_issue + ttl ->
        (ttl = 0 -> 0 <= ACCESS_TOKEN_EXPIRE_MINUTES settings) ->
        exists user,
          get_current_user settings TokenData_other f (fresh rs)
            (Some tok) t_resolve = Return user
          /\ models.user_id user = k /\ In user rs)
    /\ (ttl <= timedelta_seconds (-1) ->
        t_issue <= t_resolve ->
        get_current_user settings TokenData_other f (fresh rs)
          (Some tok) t_resolve
        = Raise (HTTP invalid_token)
        /\ fails_with
             (get_current_user settings TokenData_other f (fresh rs)
                (Some tok) t_resolve)
             InvalidToken).
Proof.
  pose proof (issue_given settings k t_issue) as Hgiven.
  pose proof (issue_default settings k t_issue) as Hdefault.
  pose proof (issue_zero settings k t_issue) as Hzero.
  destruct (Z.eq_dec ttl 0) as [-> | Hne].
  - rewrite Hzero, Hdefault. eexists. split; [reflexivity|]. split.
    + intros Hq (u & Hin & Hk) Hlive Hcfg.
      destruct (find_user_id_exists rs k u Hin Hk) as [user Hfind].
      exists user. destruct (find_user_id_spec _ _ _ Hfind) as [Hin' Hk'].
      split; [|auto].
      unfold get_current_user, db_first. rewrite Hq. simpl rows.
      rewrite decode_token_data_signed.
      specialize (Hcfg eq_refl).
      assert (Hle : t_resolve <=
                    t_issue + timedelta_minutes
                                (ACCESS_TOKEN_EXPIRE_MINUTES settings))
        by (unfold timedelta_minutes; lia).
      apply timegm_mono in Hle.
      destruct (Z.ltb_spec
                  (timegm (t_issue + timedelta_minutes
                                       (ACCESS_TOKEN_EXPIRE_MINUTES settings)))
                  (timegm t_resolve)); [lia|].
      now rewrite Hfind.
    + unfold timedelta_seconds. lia.
  - rewrite (Hgiven ttl Hne). eexists. split; [reflexivity|]. split.
    + intros Hq (u & Hin & Hk) Hlive _.
      destruct (find_user_id_exists rs k u Hin Hk) as [user Hfind].
      exists user. destruct (find_user_id_spec _ _ _ Hfind) as [Hin' Hk'].
      split; [|auto].
      unfold get_current_user, db_first. rewrite Hq. simpl rows.
      rewrite decode_token_data_signed.
      apply timegm_mono in Hlive.
      destruct (Z.ltb_spec (timegm (t_issue + ttl)) (timegm t_resolve));
        [lia|].
      now rewrite Hfind.
    + intros Hpast Horder.
      assert (Hexp : timegm (t_issue + ttl) < timegm t_resolve)
        by (apply timegm_second_earlier; lia).
      assert (Hres : get_current_user settings TokenData_other f (fresh rs)
                       (Some (Jws (ALGORITHM settings) (SECRET_KEY settings)
                                (<["exp" := PInt (timegm (t_issue + ttl))]>
                                   {["sub" := PStr (py_str k)]})))
                       t_resolve
                     = Raise (HTTP invalid_token)).
      { unfold get_current_user. rewrite decode_token_data_signed.
        destruct (Z.ltb_spec (timegm (t_issue + ttl)) (timegm t_resolve));
          [reflexivity | lia]. }
      split; [exact Hres|]. rewrite Hres.
      apply fails_with_intro, error_kind_invalid_token.
Qed.

End RoundTrip.

(** The witness of C1: key 2 on the sample table, a token with ten seconds
    to live resolved after three, and a token issued with minus one second
    resolved at once. *)
Lemma resolve_issue_round_trip_witness :
  (exists tok user,
      issue Demo.settings 2 (Some 10000000) 500 = Return tok
      /\ get_current_user Demo.settings Demo.TokenData_other no_faults
           (fresh Demo.table) (Some tok) 3000500
         = Return user
      /\ models.user_id user = 2 /\ In user Demo.table)
  /\ (exists tok,
         issue Demo.settings 2 (Some (timedelta_seconds (-1))) 500 = Return tok
         /\ fails_with
              (get_current_user Demo.settings Demo.TokenData_other no_faults
                 (fresh Demo.table) (Some tok) 500)
              InvalidToken).
Proof.
  split.
  - destruct (resolve_issue_round_trip Demo.settings Demo.TokenData_other
                no_faults Demo.table 2 10000000 500 3000500)
      as (tok & Hi & Hlive & _).
    destruct Hlive as (user & Hu).
    + reflexivity.
    + exists Demo.bob. split; [right; left; reflexivity | reflexivity].
    + lia.
    + discriminate.
    + exists tok, user. auto.
  - destruct (resolve_issue_round_trip Demo.settings Demo.TokenData_other
                no_faults Demo.table 2 (timedelta_seconds (-1)) 500 500)
      as (tok & Hi & _ & Hpast).
    exists tok. split; [exact Hi|]. apply Hpast; lia.
Defined.

(** C1, as the claim states it, fails.  A TTL that has already elapsed by
    less than a second can still resolve, because the expiry is kept in
    whole seconds: issued at 0.9 s with a TTL of -0.4 s, the token resolves
    at 0.95 s.  And a TTL of zero counts as no TTL: with a configured
    duration of minus one minute the token issued with TTL 0 does not
    resolve even at the instant it is issued. *)
Lemma resolve_issue_subsecond_ttl :
  (exists tok,
      issue Demo.settings 2 (Some (-400000)) 900000 = Return tok
      /\ -400000 < 0 /\ 900000 <= 950000
      /\ get_current_user Demo.settings Demo.TokenData_other no_faults
           (fresh Demo.table) (Some tok) 950000
         = Return Demo.bob)
  /\ (exists tok,
         issue (mkSettings "s3cret" "HS256" (-1)) 2 (Some 0) 900000
         = Return tok
         /\ 900000 <= 900000 + 0
         /\ get_current_user (mkSettings "s3cret" "HS256" (-1))
              Demo.TokenData_other no_faults (fresh Demo.table) (Some tok)
              900000
            = Raise (HTTP invalid_token)).
Proof.
  split.
  - eexists. split; [vm_compute; reflexivity|].
    split; [lia|]. split; [lia|]. vm_compute. reflexivity.
  - eexists. split; [vm_compute; reflexivity|].
    split; [lia|]. vm_compute. reflexivity.
Qed.

(** ** The subject claim in the resolver *)

Section SubjectCoercion.

Variable settings : Settings.
Variable TokenData_other : pyval -> result Z.





End SubjectCoercion.



(** ** Login handlers *)

Section Login.

Variable settings : Settings.
Variable verify_password : string -> string -> result bool.

Let minutes : Z := ACCESS_TOKEN_EXPIRE_MINUTES settings.

(** The issuer returns [handler_token] when called as the handlers call
    it. *)
Lemma issue_configured (k now : Z) :
  issue settings k (Some (timedelta_minutes minutes)) now
  = Return (handler_token settings k now).
Proof.
  pose proof (issue_given settings k now) as Hgiven.
  pose proof (issue_default settings k now) as Hdefault.
  pose proof (issue_zero settings k now) as Hzero.
  unfold handler_token. fold minutes.
  destruct (Z.eq_dec (timedelta_minutes minutes) 0) as [E | E].
  - rewrite E, Hzero, Hdefault. subst minutes. rewrite E. reflexivity.
  - now apply Hgiven.
Qed.

Lemma login_failure (f : Faults) (db : Session) (username password : string)
    (t_login t_token : Z) :
  authenticate_user verify_password f db username password = None ->
  login settings verify_password f db username password t_login t_token
  = (Raise (HTTP (mkHTTPException 401
                    "ユーザー名またはパスワードが無効です" [])), db)
  /\ login_for_access_token settings verify_password f db username password
       t_login t_token
     = (Raise (HTTP (mkHTTPException 401
                       "ユーザー名またはパスワードが無効です"
                       www_authenticate)), db).
Proof.
  intros H. unfold login, login_for_access_token. rewrite H. split; reflexivity.
Qed.

(** What a login gives once the credentials are accepted: the answer hangs
    on the reload of the expired [user], the session it leaves on the
    commit. *)
Lemma login_success (f : Faults) (db : Session) (username password : string)
    (t_login t_token : Z) (user : User) :
  authenticate_user verify_password f db username password = Some user ->
  login settings verify_password f db username password t_login t_token
  = (match refresh_fault f with
     | Some msg => Raise (OperationalError msg)
     | None =>
         Return (schemas.mkToken
                   (handler_token settings (models.user_id user) t_token)
                   "bearer" (models.user_id user) (models.name user),
                 cors_headers)
     end,
     match commit_fault f with
     | Some _ => db_rollback (db_modify db (set_last_login_at t_login user))
     | None => snd (db_commit f (db_modify db (set_last_login_at t_login user)))
     end).
Proof.
  intros H. unfold login. rewrite H. unfold db_commit, db_reload.
  pose proof (issue_configured (models.user_id user) t_token) as Hi.
  unfold issue in Hi. subst minutes.
  destruct (commit_fault f), (refresh_fault f); simpl; try reflexivity;
    rewrite Hi; reflexivity.
Qed.

Lemma login_for_access_token_success (f : Faults) (db : Session)
    (username password : string) (t_login t_token : Z) (user : User) :
  authenticate_user verify_password f db username password = Some user ->
  login_for_access_token settings verify_password f db username password
    t_login t_token
  = (match refresh_fault f with
     | Some msg => Raise (OperationalError msg)
     | None =>
         Return (schemas.mkToken
                   (handler_token settings (models.user_id user) t_token)
                   "bearer" (models.user_id user) (models.name user),
                 cors_headers)
     end,
     match commit_fault f with
     | Some _ => db_rollback (db_modify db (set_last_login_at t_login user))
     | None => snd (db_commit f (db_modify db (set_last_login_at t_login user)))
     end).
Proof.
  intros H. unfold login_for_access_token. rewrite H.
  unfold db_commit, db_reload.
  pose proof (issue_configured (models.user_id user) t_token) as Hi.
  unfold issue in Hi. subst minutes.
  destruct (commit_fault f), (refresh_fault f); simpl; try reflexivity;
    rewrite Hi; reflexivity.
Qed.

(** X20 -- with correct credentials and the reload of the user answering,
    a fault of the [last_login_at] commit does not fail either login
    handler: the pending write is rolled back (the table is as before,
    nothing is left pending) and the answer carries the token for the
    authenticated user. *)
Theorem login_survives_commit_fault (f : Faults) (db : Session)
    (username password : string) (t_login t_token : Z) (user : User)
    (msg : string) :
  authenticate_user verify_password f db username password = Some user ->
  commit_fault f = Some msg ->
  refresh_fault f = None ->
  exists db',
    login settings verify_password f db username password t_login t_token
    = (Return (schemas.mkToken
                 (handler_token settings (models.user_id user) t_token)
                 "bearer" (models.user_id user) (models.name user),
               cors_headers), db')
    /\ login_for_access_token settings verify_password f db username
         password t_login t_token
       = (Return (schemas.mkToken
                    (handler_token settings (models.user_id user) t_token)
                    "bearer" (models.user_id user) (models.name user),
                  cors_headers), db')
    /\ rows db' = rows db /\ added db' = [] /\ dirty db' = [].
Proof.
  intros Hauth Hc Hr.
  rewrite (login_success _ _ _ _ t_login t_token _ Hauth),
          (login_for_access_token_success _ _ _ _ t_login t_token _ Hauth).
  rewrite Hc, Hr. eexists. repeat (split; [reflexivity|]). reflexivity.
Qed.

End Login.

Lemma login_survives_commit_fault_witness :
  exists db',
    login Demo.settings Demo.verify_password Demo.commit_down
      (fresh Demo.table) "alice" "secret" 5000000 6000000
    = (Return (schemas.mkToken (handler_token Demo.settings 1 6000000)
                 "bearer" 1 "alice", cors_headers), db')
    /\ rows db' = Demo.table.
Proof.
  destruct (login_survives_commit_fault Demo.settings Demo.verify_password
              Demo.commit_down (fresh Demo.table) "alice" "secret"
              5000000 6000000 Demo.alice "server has gone away"
              eq_refl eq_refl eq_refl)
    as (db' & Hl & _ & Hrows & _).
  exists db'. split; [exact Hl | exact Hrows].
Defined.

(** C5 at the failing input -- alice logs in with her password, the commit
    of her login time fails and the database is still away when the handler
    goes on: after the rollback [user] is expired, [str(user.user_id)]
    loads it again outside the [try], and that load raises.  Both login
    handlers fail with the database error although the credentials were
    verified. *)
Theorem login_fails_after_timestamp_fault :
  authenticate_user Demo.verify_password
    (mkFaults None (Some "server has gone away") (Some "server has gone away"))
    (fresh Demo.table) "alice" "secret"
  = Some Demo.alice
  /\ login Demo.settings Demo.verify_password
       (mkFaults None (Some "server has gone away")
          (Some "server has gone away"))
       (fresh Demo.table) "alice" "secret" 5000000 6000000
     = (Raise (OperationalError "server has gone away"), fresh Demo.table)
  /\ login_for_access_token Demo.settings Demo.verify_password
       (mkFaults None (Some "server has gone away")
          (Some "server has gone away"))
       (fresh Demo.table) "alice" "secret" 5000000 6000000
     = (Raise (OperationalError "server has gone away"), fresh Demo.table).
Proof.
  split; [reflexivity|]. split; vm_compute; reflexivity.
Qed.

(** ** The two login endpoints side by side *)

Section Endpoints.

Variable settings : Settings.
Variable verify_password : string -> string -> result bool.

(** C9, as the code has it -- [POST /auth/token] and [POST /auth/login]
    agree on every input where the credentials are valid: the same body,
    the same response headers and the same session afterwards (the same
    last-login update).  On invalid credentials both leave the session
    untouched and fail with status 401 and the same generic message; the
    failures differ in one respect only: [/auth/token] carries the
    [WWW-Authenticate: Bearer] header and [/auth/login] carries no
    header. *)
Theorem login_endpoints_agree (f : Faults) (db : Session)
    (username password : string) (t_login t_token : Z) :
  (authenticate_user verify_password f db username password <> None ->
   login_for_access_token settings verify_password f db username password
     t_login t_token
   = login settings verify_password f db username password t_login t_token)
  /\ (authenticate_user verify_password f db username password = None ->
      exists h_token h_login,
        login_for_access_token settings verify_password f db username
          password t_login t_token = (Raise (HTTP h_token), db)
        /\ login settings verify_password f db username password
             t_login t_token = (Raise (HTTP h_login), db)
        /\ status_code h_token = 401 /\ status_code h_login = 401
        /\ detail h_token = detail h_login
        /\ error_kind h_token = Some InvalidCredentials
        /\ error_kind h_login = Some InvalidCredentials
        /\ headers h_token = www_authenticate
        /\ headers h_login = []).
Proof.
  split.
  - destruct (authenticate_user verify_password f db username password)
      as [user|] eqn:Hauth; [intros _ | congruence].
    now rewrite (login_success _ _ _ _ _ _ _ _ _ Hauth),
                (login_for_access_token_success _ _ _ _ _ _ _ _ _ Hauth).
  - intros Hauth.
    destruct (login_failure settings verify_password f db username password
                t_login t_token Hauth) as [Hl Ht].
    do 2 eexists. split; [exact Ht|]. split; [exact Hl|].
    repeat split.
Qed.

End Endpoints.

(** The witness of C9: alice with her password, and with a wrong one. *)
Lemma login_endpoints_agree_witness :
  login_for_access_token Demo.settings Demo.verify_password no_faults
    (fresh Demo.table) "alice" "secret" 5000000 6000000
  = login Demo.settings Demo.verify_password no_faults
      (fresh Demo.table) "alice" "secret" 5000000 6000000
  /\ exists h_token h_login,
       login_for_access_token Demo.settings Demo.verify_password no_faults
         (fresh Demo.table) "alice" "wrong" 5000000 6000000
       = (Raise (HTTP h_token), fresh Demo.table)
       /\ login Demo.settings Demo.verify_password no_faults
            (fresh Demo.table) "alice" "wrong" 5000000 6000000
          = (Raise (HTTP h_login), fresh Demo.table)
       /\ detail h_token = detail h_login.
Proof.
  split.
  - apply (login_endpoints_agree Demo.settings Demo.verify_password no_faults
             (fresh Demo.table) "alice" "secret" 5000000 6000000).
    discriminate.
  - destruct (login_endpoints_agree Demo.settings Demo.verify_password
                no_faults (fresh Demo.table) "alice" "wrong" 5000000 6000000)
      as [_ H].
    destruct (H eq_refl) as (h1 & h2 & Ht & Hl & _ & _ & Hd & _).
    exists h1, h2. auto.
Defined.

(** C9, as the claim states it, fails: with a wrong password the two
    endpoints do not produce the same failure; only the token endpoint sends
    the [WWW-Authenticate] challenge. *)
Lemma login_endpoints_differ_on_failure :
  login_for_access_token Demo.settings Demo.verify_password no_faults
    (fresh Demo.table) "alice" "wrong" 5000000 6000000
  = (Raise (HTTP (mkHTTPException 401 "ユーザー名またはパスワードが無効です"
                    [("WWW-Authenticate", "Bearer")])), fresh Demo.table)
  /\ login Demo.settings Demo.verify_password no_faults
       (fresh Demo.table) "alice" "wrong" 5000000 6000000
     = (Raise (HTTP (mkHTTPException 401 "ユーザー名またはパスワードが無効です"
                       [])), fresh Demo.table)
  /\ login_for_access_token Demo.settings Demo.verify_password no_faults
       (fresh Demo.table) "alice" "wrong" 5000000 6000000
     <> login Demo.settings Demo.verify_password no_faults
          (fresh Demo.table) "alice" "wrong" 5000000 6000000.
Proof.
  split; [reflexivity|]. split; [reflexivity|]. discriminate.
Qed.

(** ** Registration *)

Section Registration.

Variable settings : Settings.
Variable get_password_hash : string -> result string.

Let minutes : Z := ACCESS_TOKEN_EXPIRE_MINUTES settings.

Lemma db_commit_add_fresh (f : Faults) (rs : list User) (u : User) :
  commit_fault f = None ->
  db_commit f (db_add (fresh rs) u)
  = (Return tt, fresh (rs ++ [set_user_id (next_user_id rs) u])).
Proof. intros H. unfold db_commit. rewrite H. reflexivity. Qed.

Lemma db_refresh_last_snoc (f : Faults) (rs : list User) (u : User) :
  refresh_fault f = None ->
  db_refresh_last f (fresh (rs ++ [u])) = Return u.
Proof.
  intros H. unfold db_refresh_last. rewrite H. simpl rows.
  now rewrite last_snoc.
Qed.

Lemma set_user_id_new_user (rs : list User) (user_data : UserCreate)
    (hashed : string) (t_created : Z) :
  set_user_id (next_user_id rs) (new_user user_data hashed t_created)
  = created_user rs user_data hashed t_created.
Proof.
  unfold set_user_id, new_user, created_user. simpl.
  destruct (schemas.categories user_data); reflexivity.
Qed.

(** Every way [register_user] can end on a fresh session. *)
Lemma register_user_cases (f : Faults) (rs : list User)
    (user_data : UserCreate) (t_created t_token : Z) :
  let out := register_user settings get_password_hash f (fresh rs) user_data
               t_created t_token in
  (exists h, out = (Raise (HTTP h), fresh rs)
             /\ error_kind h = Some PasswordMismatch
             /\ schemas.password user_data <> schemas.confirm_password user_data)
  \/ (exists msg, out = (Raise (OperationalError msg), fresh rs)
                  /\ query_fault f = Some msg)
  \/ (exists h, out = (Raise (HTTP h), fresh rs)
                /\ error_kind h = Some DuplicateName
                /\ schemas.password user_data = schemas.confirm_password user_data
                /\ exists u, In u rs /\ models.name u = schemas.name user_data)
  \/ (exists h, out = (Raise (HTTP h), fresh rs)
                /\ error_kind h = Some PersistenceFailure
                /\ ((exists e, get_password_hash (schemas.password user_data)
                               = Raise e)
                    \/ commit_fault f <> None))
  \/ (exists h hashed,
         out = (Raise (HTTP h),
                fresh (rs ++ [created_user rs user_data hashed t_created]))
         /\ error_kind h = Some PersistenceFailure
         /\ get_password_hash (schemas.password user_data) = Return hashed
         /\ commit_fault f = None /\ refresh_fault f <> None)
  \/ (exists hashed,
         out = (Return (schemas.mkToken
                          (handler_token settings (next_user_id rs) t_token)
                          "bearer" (next_user_id rs) (schemas.name user_data),
                        cors_headers),
                fresh (rs ++ [created_user rs user_data hashed t_created]))
         /\ get_password_hash (schemas.password user_data) = Return hashed
         /\ schemas.password user_data = schemas.confirm_password user_data
         /\ (forall u, In u rs -> models.name u <> schemas.name user_data)
         /\ query_fault f = None /\ commit_fault f = None
         /\ refresh_fault f = None).
Proof.
  intros out.
  assert (Hout : out = register_user settings get_password_hash f (fresh rs)
                         user_data t_created t_token) by reflexivity.
  clearbody out. unfold register_user in Hout.
  destruct (String.eqb_spec (schemas.password user_data)
              (schemas.confirm_password user_data)) as [Hpw | Hpw];
    simpl negb in Hout; cbv iota in Hout.
  2: { left. eexists. split; [exact Hout|]. split; [reflexivity | exact Hpw]. }
  right. unfold db_first in Hout.
  destruct (query_fault f) as [msg|] eqn:Hq.
  { left. exists msg. auto. }
  right. unfold fresh at 1 in Hout. simpl rows in Hout.
  destruct (find _ rs) as [u|] eqn:Hfind.
  { left. eexists. split; [exact Hout|]. split; [reflexivity|].
    split; [exact Hpw|]. exists u. now apply find_name_spec. }
  right.
  destruct (get_password_hash (schemas.password user_data))
    as [hashed|e] eqn:Hhash.
  2: { left. eexists. split; [exact Hout|]. split; [reflexivity|]. eauto. }
  destruct (commit_fault f) as [msg|] eqn:Hc.
  { left. unfold db_commit in Hout. rewrite Hc in Hout. eexists.
    split; [exact Hout|]. split; [reflexivity|]. right. discriminate. }
  right.
  rewrite (db_commit_add_fresh f rs _ Hc), set_user_id_new_user in Hout.
  destruct (refresh_fault f) as [msg|] eqn:Hr.
  { left. unfold db_refresh_last in Hout. rewrite Hr in Hout.
    eexists _, hashed.
    split; [exact Hout|]. split; [reflexivity|].
    split; [reflexivity|]. split; [reflexivity | discriminate]. }
  right. rewrite (db_refresh_last_snoc f rs _ Hr) in Hout.
  pose proof (issue_configured settings (next_user_id rs) t_token) as Hi.
  unfold issue in Hi. cbv zeta in Hi.
  change (models.user_id (created_user rs user_data hashed t_created))
    with (next_user_id rs) in Hout.
  rewrite Hi in Hout. exists hashed.
  split; [exact Hout|]. split; [reflexivity|]. split; [exact Hpw|].
  split; [|auto].
  intros u Hin Hname. apply (find_none _ _ Hfind) in Hin.
  apply String.eqb_neq in Hin. contradiction.
Qed.

End Registration.

Section RegistrationClaims.

Variable settings : Settings.
Variable get_password_hash : string -> result string.

(** A failed registration whose fault is not in the reload after the
    commit leaves the table as it was. *)
Lemma register_user_failure_storage (f : Faults) (rs : list User)
    (user_data : UserCreate) (t_created t_token : Z) (e : exn)
    (db' : Session) :
  register_user settings get_password_hash f (fresh rs) user_data
    t_created t_token = (Raise e, db') ->
  refresh_fault f = None ->
  db' = fresh rs.
Proof.
  intros H Hr.
  destruct (register_user_cases settings get_password_hash f rs user_data
              t_created t_token)
    as [(h & Ho & _) | [(msg & Ho & _) | [(h & Ho & _) | [(h & Ho & _)
       | [(h & hashed & _ & _ & _ & _ & Hne) | (hashed & Ho & _)]]]]];
    cbv zeta in *; try congruence.
Qed.

(** C7 -- a successful registration on a request's session adds exactly
    one row: the given name, the hash of the given password, the
    categories joined by commas in their order (the empty text for no
    category), point total 0 and [last_login_at] set to the creation
    time. *)
Theorem register_user_constructs (f : Faults) (rs : list User)
    (user_data : UserCreate) (t_created t_token : Z)
    (r : Token * list (string * string)) (db' : Session) :
  register_user settings get_password_hash f (fresh rs) user_data
    t_created t_token = (Return r, db') ->
  exists hashed user,
    get_password_hash (schemas.password user_data) = Return hashed
    /\ rows db' = (rs ++ [user])%list
    /\ models.name user = schemas.name user_data
    /\ models.password user = hashed
    /\ models.point_total user = 0
    /\ models.last_login_at user = Some t_created
    /\ models.categories user = join "," (schemas.categories user_data)
    /\ (schemas.categories user_data = [] -> models.categories user = "").
Proof.
  intros H.
  destruct (register_user_cases settings get_password_hash f rs user_data
              t_created t_token)
    as [(h & Ho & _) | [(msg & Ho & _) | [(h & Ho & _) | [(h & Ho & _)
       | [(h & hashed & Ho & _) | (hashed & Ho & Hh & _)]]]]];
    cbv zeta in *; try congruence.
  rewrite Ho in H. injection H as <- <-.
  exists hashed, (created_user rs user_data hashed t_created).
  repeat (split; [reflexivity || assumption|]).
  intros Hnil. simpl. now rewrite Hnil.
Qed.

End RegistrationClaims.

(** The witness of C7: carol registers with two categories. *)
Lemma register_user_constructs_witness :
  exists hashed user,
    Demo.get_password_hash "pw" = Return hashed
    /\ (Demo.table ++
        [models.mkUser 3 "carol" "hash:pw" "puzzle,quiz" 0 (Some 7000000)])%list
       = (Demo.table ++ [user])%list
    /\ models.name user = "carol"
    /\ models.password user = hashed
    /\ models.point_total user = 0
    /\ models.last_login_at user = Some 7000000
    /\ models.categories user = "puzzle,quiz".
Proof.
  destruct (register_user_constructs Demo.settings Demo.get_password_hash
              no_faults Demo.table Demo.carol_form 7000000 7000001
              (schemas.mkToken
                 (handler_token Demo.settings 3 7000001)
                 "bearer" 3 "carol", cors_headers)
              (fresh (Demo.table ++
                      [models.mkUser 3 "carol" "hash:pw" "puzzle,quiz" 0
                         (Some 7000000)])))
    as (hashed & user & H1 & H2 & H3 & H4 & H5 & H6 & H7 & _).
  - vm_compute. reflexivity.
  - exists hashed, user. auto 10.
Defined.

(** C4 at the failing input -- carol registers on the sample table and the
    reload after the commit fails: the handler answers with the persistence
    failure (status 500), yet carol's row is in the table; the rollback in
    the handler no longer reaches the committed insert. *)
Theorem register_user_fault_after_commit :
  register_user Demo.settings Demo.get_password_hash Demo.refresh_down
    (fresh Demo.table) Demo.carol_form 7000000 7000001
  = (Raise (HTTP (mkHTTPException 500
                    "ユーザー登録中にエラーが発生しました: server has gone away" [])),
     fresh (Demo.table ++
            [models.mkUser 3 "carol" "hash:pw" "puzzle,quiz" 0 (Some 7000000)]))
  /\ fails_with
       (fst (register_user Demo.settings Demo.get_password_hash
               Demo.refresh_down (fresh Demo.table) Demo.carol_form
               7000000 7000001))
       PersistenceFailure
  /\ rows (snd (register_user Demo.settings Demo.get_password_hash
                  Demo.refresh_down (fresh Demo.table) Demo.carol_form
                  7000000 7000001))
     <> Demo.table.
Proof.
  split; [vm_compute; reflexivity|]. split.
  - apply fails_with_intro. reflexivity.
  - vm_compute. discriminate.
Qed.

(** ** Response bodies *)

Section Responses.

Variable settings : Settings.
Variable get_password_hash : string -> result string.
Variable verify_password : string -> string -> result bool.

Lemma issued_self_consistent (user : User) (now : Z) :
  self_consistent settings
    (schemas.mkToken
       (handler_token settings (models.user_id user) now)
       "bearer" (models.user_id user) (models.name user))
    user.
Proof.
  unfold self_consistent. simpl.
  repeat (split; [reflexivity|]).
  unfold handler_token. eexists. split; [reflexivity|].
  rewrite lookup_insert_ne by discriminate. rewrite lookup_singleton_eq.
  split; [reflexivity|]. simpl. now rewrite py_int_py_str.
Qed.

(** C10 -- every successful answer of the three endpoints is about one
    user: the token type is ["bearer"], [user_id] and [user_name] are the
    key and name of the authenticated user (for a registration: of the row
    just created, which bears the submitted name), and the subject claim
    of the returned token is the decimal text of that [user_id], which the
    resolver coerces back to the same key. *)
Theorem responses_self_consistent :
  (forall f db username password t_login t_token r hdrs db',
      login_for_access_token settings verify_password f db username password
        t_login t_token = (Return (r, hdrs), db') ->
      exists user,
        authenticate_user verify_password f db username password = Some user
        /\ self_consistent settings r user)
  /\ (forall f db username password t_login t_token r hdrs db',
         login settings verify_password f db username password
           t_login t_token = (Return (r, hdrs), db') ->
         exists user,
           authenticate_user verify_password f db username password
           = Some user
           /\ self_consistent settings r user)
  /\ (forall f rs user_data t_created t_token r hdrs db',
         register_user settings get_password_hash f (fresh rs) user_data
           t_created t_token = (Return (r, hdrs), db') ->
         exists user,
           last (rows db') = Some user
           /\ models.name user = schemas.name user_data
           /\ self_consistent settings r user).
Proof.
  split; [|split].
  - intros f db username password t_login t_token r hdrs db' H.
    destruct (authenticate_user verify_password f db username password)
      as [user|] eqn:Hauth.
    + rewrite (login_for_access_token_success settings verify_password
                 f db username password t_login t_token user Hauth) in H.
      destruct (refresh_fault f); [discriminate|].
      injection H as <- _ _. exists user. split; [reflexivity|].
      apply issued_self_consistent.
    + destruct (login_failure settings verify_password f db username
                  password t_login t_token Hauth) as [_ Hl].
      rewrite Hl in H. discriminate.
  - intros f db username password t_login t_token r hdrs db' H.
    destruct (authenticate_user verify_password f db username password)
      as [user|] eqn:Hauth.
    + rewrite (login_success settings verify_password
                 f db username password t_login t_token user Hauth) in H.
      destruct (refresh_fault f); [discriminate|].
      injection H as <- _ _. exists user. split; [reflexivity|].
      apply issued_self_consistent.
    + destruct (login_failure settings verify_password f db username
                  password t_login t_token Hauth) as [Hl _].
      rewrite Hl in H. discriminate.
  - intros f rs user_data t_created t_token r hdrs db' H.
    destruct (register_user_cases settings get_password_hash f rs user_data
                t_created t_token)
      as [(h & Ho & _) | [(msg & Ho & _) | [(h & Ho & _) | [(h & Ho & _)
         | [(h & hashed & Ho & _) | (hashed & Ho & _)]]]]];
      cbv zeta in *; try congruence.
    rewrite Ho in H. injection H as <- _ <-.
    exists (created_user rs user_data hashed t_created).
    split; [simpl; apply last_snoc|]. split; [reflexivity|].
    apply (issued_self_consistent
             (created_user rs user_data hashed t_created)).
Qed.

End Responses.

(** The witness of C10: alice logs in over either endpoint and carol
    registers. *)
Lemma responses_self_consistent_witness :
  (exists user,
      authenticate_user Demo.verify_password no_faults (fresh Demo.table)
        "alice" "secret" = Some user
      /\ self_consistent Demo.settings
           (schemas.mkToken
              (handler_token Demo.settings 1 6000000)
              "bearer" 1 "alice") user)
  /\ (exists user,
         last (Demo.table ++
               [models.mkUser 3 "carol" "hash:pw" "puzzle,quiz" 0
                  (Some 7000000)]) = Some user
         /\ models.name user = "carol"
         /\ self_consistent Demo.settings
              (schemas.mkToken
                 (handler_token Demo.settings 3 7000001)
                 "bearer" 3 "carol") user).
Proof.
  destruct (responses_self_consistent Demo.settings Demo.get_password_hash
              Demo.verify_password) as (Htoken & Hlogin & Hregister).
  split.
  - apply (Hlogin no_faults (fresh Demo.table) "alice" "secret"
             5000000 6000000 _ cors_headers
             (fresh [set_last_login_at 5000000 Demo.alice; Demo.bob])).
    vm_compute. reflexivity.
  - apply (Hregister no_faults Demo.table Demo.carol_form 7000000 7000001
             _ cors_headers
             (fresh (Demo.table ++
                     [models.mkUser 3 "carol" "hash:pw" "puzzle,quiz" 0
                        (Some 7000000)]))).
    vm_compute. reflexivity.
Defined.

(** * Further properties of the code *)

(** ** The resolver's failures *)

Section ResolverFailures.

Variable settings : Settings.
Variable TokenData_other : pyval -> result Z.


(** X1 -- whenever [get_current_user] raises an [HTTPException], it is a
    401 carrying the [WWW-Authenticate: Bearer] header, of kind
    [Unauthenticated] or [InvalidToken] (the [TokenData] schema itself
    raising no [HTTPException]). *)
Theorem get_current_user_http_failures (f : Faults) (db : Session)
    (tok : option token) (now : Z) (h : HTTPException) :
  (forall v h', TokenData_other v <> Raise (HTTP h')) ->
  get_current_user settings TokenData_other f db tok now = Raise (HTTP h) ->
  status_code h = 401
  /\ headers h = [("WWW-Authenticate", "Bearer")]
  /\ (error_kind h = Some Unauthenticated \/ error_kind h = Some InvalidToken).
Proof.
  intros Hschema. unfold get_current_user.
  destruct tok as [t|]; [|intros [= <-]; auto].
  unfold decode_token_data.
  destruct (jwt_decode t _ _ now) as [payload|e] eqn:Hd.
  - unfold coerce_subject.
    destruct (payload !! "sub") as [[| b | n | s | d | l]|];
      try (intros [= <-]; auto).
    + simpl TokenData.
      destruct (TokenData_other (PBool b)) as [k|e] eqn:Ht.
      * unfold db_first. destruct (query_fault f); [discriminate|].
        destruct (find _ (rows db)); [discriminate | intros [= <-]; auto].
      * destruct e; try discriminate; [|intros [= <-]; auto].
        now apply Hschema in Ht.
    + simpl TokenData. unfold db_first.
      destruct (query_fault f); [discriminate|].
      destruct (find _ (rows db)); [discriminate | intros [= <-]; auto].
    + destruct (py_int s) as [n|]; [|intros [= <-]; auto].
      simpl TokenData. unfold db_first.
      destruct (query_fault f); [discriminate|].
      destruct (find _ (rows db)); [discriminate | intros [= <-]; auto].
    + simpl TokenData.
      destruct (TokenData_other (PDatetime d)) as [k|e] eqn:Ht.
      * unfold db_first. destruct (query_fault f); [discriminate|].
        destruct (find _ (rows db)); [discriminate | intros [= <-]; auto].
      * destruct e; try discriminate; [|intros [= <-]; auto].
        now apply Hschema in Ht.
    + simpl TokenData.
      destruct (TokenData_other (PList l)) as [k|e] eqn:Ht.
      * unfold db_first. destruct (query_fault f); [discriminate|].
        destruct (find _ (rows db)); [discriminate | intros [= <-]; auto].
      * destruct e; try discriminate; [|intros [= <-]; auto].
        now apply Hschema in Ht.
  - destruct (jwt_decode_raises _ _ _ _ _ Hd) as [msg ->].
    intros [= <-]; auto.
Qed.


End ResolverFailures.

Lemma get_current_user_http_failures_witness :
  status_code user_not_found = 401
  /\ headers user_not_found = [("WWW-Authenticate", "Bearer")]
  /\ (error_kind user_not_found = Some Unauthenticated
      \/ error_kind user_not_found = Some InvalidToken).
Proof.
  apply (get_current_user_http_failures Demo.settings Demo.TokenData_other
           no_faults (fresh Demo.table)
           (Some (Jws "HS256" "s3cret" {["sub" := PStr "99"]})) 0
           user_not_found).
  - intros v h'. discriminate.
  - vm_compute. reflexivity.
Defined.


(** ** The issuer on arbitrary claims *)

Section IssuerGeneral.

Variable settings : Settings.

(** The instant [create_access_token] puts into [exp]. *)
Lemma to_encode_exp (data : gmap string pyval) (ttl : option Z) (now : Z) :
  exists expire,
    to_encode settings data ttl now = <["exp" := PDatetime expire]> data
    /\ (forall d, ttl = Some d -> d <> 0 -> expire = now + d)
    /\ (ttl = None \/ ttl = Some 0 ->
        expire = now + timedelta_minutes (ACCESS_TOKEN_EXPIRE_MINUTES settings)).
Proof.
  unfold to_encode. destruct ttl as [d|].
  - destruct (Z.eqb_spec d 0) as [-> | Hd].
    + eexists. split; [reflexivity|]. split; [congruence | reflexivity].
    + eexists. split; [reflexivity|]. split.
      * intros d' [= <-] _. reflexivity.
      * intros [H | [= H]]; [discriminate | contradiction].
  - eexists. split; [reflexivity|]. split; [discriminate | reflexivity].
Qed.

Lemma convert_time_claim_lookup (m : gmap string pyval) (tc k : string) :
  convert_time_claim m tc !! k
  = if decide (k = tc) then time_json <$> m !! k else m !! k.
Proof.
  unfold convert_time_claim. destruct (decide (k = tc)) as [-> | Hk].
  - destruct (m !! tc) as [[]|] eqn:E; rewrite ?lookup_insert_eq, ?E;
      reflexivity.
  - destruct (m !! tc) as [[]|] eqn:E;
      rewrite ?lookup_insert_ne by congruence; reflexivity.
Qed.

Lemma encoded_lookup (m : gmap string pyval) (k : string) :
  fold_left convert_time_claim ["exp"; "iat"; "nbf"] m !! k
  = encoded_claim k <$> m !! k.
Proof.
  simpl fold_left. rewrite !convert_time_claim_lookup. unfold encoded_claim.
  destruct (decide (k = "nbf")) as [-> | Hn]; [now destruct (m !! "nbf")|].
  destruct (decide (k = "iat")) as [-> | Hi]; [now destruct (m !! "iat")|].
  destruct (decide (k = "exp")) as [-> | He]; [now destruct (m !! "exp")|].
  rewrite bool_decide_eq_false_2.
  - now destruct (m !! k).
  - intros Hin. apply list_elem_of_In in Hin. simpl in Hin. intuition.
Qed.

Lemma encoded_claim_other (key : string) (v : pyval) :
  key <> "exp" -> key <> "iat" -> key <> "nbf" -> encoded_claim key v = v.
Proof.
  intros He Hi Hn. unfold encoded_claim. rewrite bool_decide_eq_false_2;
    [reflexivity|].
  intros Hin. apply list_elem_of_In in Hin. simpl in Hin. intuition.
Qed.

(** What [create_access_token] does with any [data]: the claims it tries to
    write, and that it returns exactly when they can all be written. *)
Lemma create_access_token_cases (data : gmap string pyval) (ttl : option Z)
    (now : Z) :
  exists expire claims,
    to_encode settings data ttl now = <["exp" := PDatetime expire]> data
    /\ (forall key,
           claims !! key
           = encoded_claim key <$> (<["exp" := PDatetime expire]> data) !! key)
    /\ create_access_token settings data ttl now
       = if decide (map_Forall (fun _ v => json_serializable v = true) claims)
         then Return (Jws (ALGORITHM settings) (SECRET_KEY settings) claims)
         else Raise (TypeError
                       "Object of type datetime is not JSON serializable").
Proof.
  destruct (to_encode_exp data ttl now) as (expire & He & _).
  exists expire,
    (fold_left convert_time_claim ["exp"; "iat"; "nbf"]
       (<["exp" := PDatetime expire]> data)).
  split; [exact He|]. split; [intros key; apply encoded_lookup|].
  unfold create_access_token, jwt_encode. rewrite He. reflexivity.
Qed.

(** X3 -- [create_access_token] and the claims of [data].  When it returns,
    the token carries its own integer [exp] (also over an [exp] the caller
    supplied), [iat] and [nbf] with a [datetime] turned into whole seconds,
    and every other claim of [data] unchanged.  It returns exactly when
    every claim other than [exp] can be written as JSON once so encoded;
    otherwise (a [datetime] under another key, or inside a list) it raises
    [TypeError]. *)
Theorem create_access_token_claims (data : gmap string pyval)
    (ttl : option Z) (now : Z) :
  (forall tok,
      create_access_token settings data ttl now = Return tok ->
      exists claims e,
        tok = Jws (ALGORITHM settings) (SECRET_KEY settings) claims
        /\ claims !! "exp" = Some (PInt e)
        /\ (forall d, ttl = Some d -> d <> 0 -> e = timegm (now + d))
        /\ claims !! "iat" = time_json <$> data !! "iat"
        /\ claims !! "nbf" = time_json <$> data !! "nbf"
        /\ (forall key, key <> "exp" -> key <> "iat" -> key <> "nbf" ->
                        claims !! key = data !! key))
  /\ ((forall key v, key <> "exp" -> data !! key = Some v ->
                     json_serializable (encoded_claim key v) = true)
      -> exists tok, create_access_token settings data ttl now = Return tok)
  /\ (forall key v, key <> "exp" -> data !! key = Some v ->
                    json_serializable (encoded_claim key v) = false ->
                    create_access_token settings data ttl now
                    = Raise (TypeError
                               "Object of type datetime is not JSON serializable")).
Proof.
  destruct (create_access_token_cases data ttl now)
    as (expire & claims & He & Hclaims & Hcreate).
  destruct (to_encode_exp data ttl now) as (expire' & He' & Hgiven & _).
  assert (expire' = expire) as ->.
  { rewrite He in He'.
    assert (E : (<["exp" := PDatetime expire]> data) !! "exp"
                = (<["exp" := PDatetime expire']> data) !! "exp")
      by now rewrite He'.
    rewrite !lookup_insert_eq in E. congruence. }
  split; [|split].
  - intros tok Htok. rewrite Hcreate in Htok.
    destruct (decide _); [|discriminate]. injection Htok as <-.
    exists claims, (timegm expire). split; [reflexivity|].
    split; [rewrite Hclaims, lookup_insert_eq; reflexivity|].
    split; [intros d Hd Hne; now rewrite (Hgiven d Hd Hne)|].
    split; [rewrite Hclaims, lookup_insert_ne by discriminate;
            now destruct (data !! "iat")|].
    split; [rewrite Hclaims, lookup_insert_ne by discriminate;
            now destruct (data !! "nbf")|].
    intros key Hx Hi Hn. rewrite Hclaims, lookup_insert_ne by congruence.
    destruct (data !! key); [|reflexivity].
    simpl. now rewrite encoded_claim_other.
  - intros Hall. rewrite Hcreate. destruct (decide _) as [|Hno]; [eauto|].
    exfalso. apply Hno. apply map_Forall_lookup. intros key v' Hv'.
    rewrite Hclaims in Hv'.
    destruct (decide (key = "exp")) as [-> | Hx].
    + rewrite lookup_insert_eq in Hv'. injection Hv' as <-. reflexivity.
    + rewrite lookup_insert_ne in Hv' by congruence.
      destruct (data !! key) as [v|] eqn:Hv; [|discriminate].
      injection Hv' as <-. now apply (Hall key v).
  - intros key v Hx Hv Hbad. rewrite Hcreate.
    destruct (decide _) as [Hall|]; [|reflexivity].
    exfalso. rewrite map_Forall_lookup in Hall.
    specialize (Hall key (encoded_claim key v)).
    rewrite Hclaims, lookup_insert_ne, Hv in Hall by congruence.
    specialize (Hall eq_refl). congruence.
Qed.

(** X4 -- decoding what [create_access_token] issued, with the configured
    key and algorithm.  For [data] that holds none of the claims [iat],
    [nbf], [aud], [jti] and [at_hash], whose [sub] (if any) is text and
    whose other claims can be written as JSON, the claims come back up to
    and including the expiry second, and from the next second on the
    decoder raises [JWTError]. *)
Theorem jwt_decode_create_access_token (data : gmap string pyval)
    (ttl : option Z) (now now' : Z) :
  data !! "iat" = None -> data !! "nbf" = None -> data !! "aud" = None ->
  data !! "jti" = None -> data !! "at_hash" = None ->
  (forall v, data !! "sub" = Some v -> exists s, v = PStr s) ->
  (forall key v, key <> "exp" -> data !! key = Some v ->
                 json_serializable v = true) ->
  exists tok claims e,
    create_access_token settings data ttl now = Return tok
    /\ tok = Jws (ALGORITHM settings) (SECRET_KEY settings) claims
    /\ claims !! "exp" = Some (PInt e)
    /\ (forall d, ttl = Some d -> d <> 0 -> e = timegm (now + d))
    /\ (timegm now' <= e ->
        jwt_decode tok (SECRET_KEY settings) [ALGORITHM settings] now'
        = Return claims)
    /\ (e < timegm now' ->
        jwt_decode tok (SECRET_KEY settings) [ALGORITHM settings] now'
        = Raise (JWTError "Signature has expired.")).
Proof.
  intros Hiat Hnbf Haud Hjti Hat Hsub Hser.
  destruct (create_access_token_cases data ttl now)
    as (expire & claims & He & Hclaims & Hcreate).
  destruct (to_encode_exp data ttl now) as (expire' & He' & Hgiven & _).
  assert (expire' = expire) as ->.
  { rewrite He in He'.
    assert (E : (<["exp" := PDatetime expire]> data) !! "exp"
                = (<["exp" := PDatetime expire']> data) !! "exp")
      by now rewrite He'.
    rewrite !lookup_insert_eq in E. congruence. }
  assert (Hother : forall key, key <> "exp" ->
                     claims !! key = encoded_claim key <$> data !! key).
  { intros key Hk. now rewrite Hclaims, lookup_insert_ne by congruence. }
  assert (Hall : map_Forall (fun _ v => json_serializable v = true) claims).
  { apply map_Forall_lookup. intros key v' Hv'.
    destruct (decide (key = "exp")) as [-> | Hx].
    - rewrite Hclaims, lookup_insert_eq in Hv'. injection Hv' as <-.
      reflexivity.
    - rewrite (Hother key Hx) in Hv'.
      destruct (data !! key) as [v|] eqn:Hv; [|discriminate].
      injection Hv' as <-.
      destruct (decide (key = "iat")) as [-> | Hi]; [congruence|].
      destruct (decide (key = "nbf")) as [-> | Hn]; [congruence|].
      rewrite encoded_claim_other by assumption. now apply (Hser key v). }
  rewrite Hcreate. destruct (decide _) as [_|Hno]; [|contradiction].
  exists (Jws (ALGORITHM settings) (SECRET_KEY settings) claims), claims,
    (timegm expire).
  assert (Hexp : claims !! "exp" = Some (PInt (timegm expire)))
    by (rewrite Hclaims, lookup_insert_eq; reflexivity).
  split; [reflexivity|]. split; [reflexivity|]. split; [exact Hexp|].
  split; [intros d Hd Hne; now rewrite (Hgiven d Hd Hne)|].
  assert (Hval : validate_claims claims now'
                 = if Z.ltb (timegm expire) (timegm now')
                   then Some "Signature has expired." else None).
  { unfold validate_claims, check_iat, check_nbf, check_exp, check_aud,
      check_sub, check_jti, check_at_hash.
    rewrite Hexp.
    rewrite (Hother "iat"), (Hother "nbf"), (Hother "aud"), (Hother "sub"),
            (Hother "jti"), (Hother "at_hash") by discriminate.
    rewrite Hiat, Hnbf, Haud, Hjti, Hat. simpl.
    destruct (Z.ltb (timegm expire) (timegm now')); [reflexivity|].
    destruct (data !! "sub") as [v|] eqn:Hv; [|reflexivity].
    destruct (Hsub v eq_refl) as [s ->]. reflexivity. }
  unfold jwt_decode.
  rewrite bool_decide_eq_true_2 by (apply list_elem_of_In; now left).
  rewrite String.eqb_refl. simpl negb. cbv iota. rewrite Hval.
  split; intros H.
  - destruct (Z.ltb_spec (timegm expire) (timegm now')); [lia | reflexivity].
  - destruct (Z.ltb_spec (timegm expire) (timegm now')); [reflexivity | lia].
Qed.

Lemma create_access_token_claims_lookup_sub (k : Z) (ttl : option Z) (now : Z) :
  exists claims,
    create_access_token settings {["sub" := PStr (py_str k)]} ttl now
    = Return (Jws (ALGORITHM settings) (SECRET_KEY settings) claims)
    /\ claims !! "sub" = Some (PStr (py_str k)).
Proof.
  destruct (to_encode_exp {["sub" := PStr (py_str k)]} ttl now)
    as (expire & He & _).
  unfold create_access_token. rewrite He, jwt_encode_sub_exp. eexists.
  split; [reflexivity|].
  rewrite lookup_insert_ne by discriminate.
  now rewrite lookup_singleton_eq.
Qed.

Lemma py_str_inj (a b : Z) : py_str a = py_str b -> a = b.
Proof.
  intros H. assert (E : py_int (py_str a) = py_int (py_str b)) by now rewrite H.
  rewrite !py_int_py_str in E. congruence.
Qed.

(** X5 -- tokens issued for two different identity keys are different
    tokens, whatever the TTLs and the clock readings. *)
Theorem issue_injective (k1 k2 : Z) (ttl1 ttl2 : option Z) (now1 now2 : Z) :
  issue settings k1 ttl1 now1 = issue settings k2 ttl2 now2 -> k1 = k2.
Proof.
  unfold issue. intros H.
  destruct (create_access_token_claims_lookup_sub k1 ttl1 now1) as (c1 & H1 & S1).
  destruct (create_access_token_claims_lookup_sub k2 ttl2 now2) as (c2 & H2 & S2).
  rewrite H1, H2 in H. injection H as <-.
  rewrite S1 in S2. injection S2 as E. now apply py_str_inj.
Qed.

End IssuerGeneral.

Lemma create_access_token_claims_witness :
  (exists tok claims e,
      create_access_token Demo.settings
        (<["exp" := PInt 0]> (<["iat" := PDatetime 1500000]>
                                {["sub" := PStr "7"]}))
        (Some 90000000) 1000000
      = Return tok
      /\ tok = Jws "HS256" "s3cret" claims
      /\ claims !! "exp" = Some (PInt e) /\ e = 91
      /\ claims !! "iat" = Some (PInt 1)
      /\ claims !! "sub" = Some (PStr "7"))
  /\ create_access_token Demo.settings
       (<["issued" := PDatetime 1500000]> {["sub" := PStr "7"]})
       (Some 90000000) 1000000
     = Raise (TypeError "Object of type datetime is not JSON serializable").
Proof.
  destruct (create_access_token_claims Demo.settings
              (<["exp" := PInt 0]> (<["iat" := PDatetime 1500000]>
                                      {["sub" := PStr "7"]}))
              (Some 90000000) 1000000)
    as (Hret & Hok & _).
  destruct (create_access_token_claims Demo.settings
              (<["issued" := PDatetime 1500000]> {["sub" := PStr "7"]})
              (Some 90000000) 1000000)
    as (_ & _ & Hbad).
  split.
  - destruct Hok as [tok Htok].
    { intros key v Hkey Hv.
      destruct (decide (key = "iat")) as [-> | Hi].
      - vm_compute in Hv. injection Hv as <-. reflexivity.
      - rewrite lookup_insert_ne, lookup_insert_ne in Hv by congruence.
        apply lookup_singleton_Some in Hv as [<- <-]. reflexivity. }
    destruct (Hret tok Htok) as (claims & e & -> & He & Hd & Hiat & _ & Hrest).
    exists (Jws "HS256" "s3cret" claims), claims, e.
    split; [exact Htok|]. split; [reflexivity|]. split; [exact He|].
    split; [apply (Hd 90000000); [reflexivity | discriminate]|].
    split; [rewrite Hiat; reflexivity|].
    rewrite (Hrest "sub") by discriminate. reflexivity.
  - apply (Hbad "issued" (PDatetime 1500000)); [discriminate | | ];
      reflexivity.
Defined.

Lemma jwt_decode_create_access_token_witness :
  exists tok,
    create_access_token Demo.settings
      (<["role" := PStr "admin"]> {["sub" := PStr "7"]})
      (Some 90000000) 1000000 = Return tok
    /\ jwt_decode tok "s3cret" ["HS256"] 91999999
       = Return (<["exp" := PInt 91]>
                   (<["role" := PStr "admin"]> {["sub" := PStr "7"]}))
    /\ jwt_decode tok "s3cret" ["HS256"] 92000000
       = Raise (JWTError "Signature has expired.").
Proof.
  pose (data := (<["role" := PStr "admin"]> {["sub" := PStr "7"]}
                 : gmap string pyval)).
  assert (Hiat : data !! "iat" = None) by (vm_compute; reflexivity).
  assert (Hnbf : data !! "nbf" = None) by (vm_compute; reflexivity).
  assert (Haud : data !! "aud" = None) by (vm_compute; reflexivity).
  assert (Hjti : data !! "jti" = None) by (vm_compute; reflexivity).
  assert (Hat : data !! "at_hash" = None) by (vm_compute; reflexivity).
  assert (Hser : forall key v, key <> "exp" -> data !! key = Some v ->
                               json_serializable v = true).
  { intros key v _ Hv. subst data.
    destruct (decide (key = "role")) as [-> | Hr].
    - rewrite lookup_insert_eq in Hv. injection Hv as <-. reflexivity.
    - rewrite lookup_insert_ne in Hv by congruence.
      apply lookup_singleton_Some in Hv as [<- <-]. reflexivity. }
  assert (Hsub : forall v, data !! "sub" = Some v -> exists s, v = PStr s).
  { intros v Hv. vm_compute in Hv. injection Hv as <-. eauto. }
  destruct (jwt_decode_create_access_token Demo.settings data
              (Some 90000000) 1000000 91999999
              Hiat Hnbf Haud Hjti Hat Hsub Hser)
    as (tok & claims & e & Htok & -> & He & Hd & Hlive & _).
  destruct (jwt_decode_create_access_token Demo.settings data
              (Some 90000000) 1000000 92000000
              Hiat Hnbf Haud Hjti Hat Hsub Hser)
    as (tok' & claims' & e' & Htok' & -> & He' & Hd' & _ & Hlate).
  rewrite Htok in Htok'. injection Htok' as <-.
  rewrite He in He'. injection He' as <-.
  pose proof (Hd 90000000 eq_refl ltac:(discriminate)) as Hev.
  vm_compute in Hev. subst e.
  exists (Jws "HS256" "s3cret" claims).
  split; [exact Htok|].
  vm_compute in Htok. injection Htok as <-.
  split; [apply Hlive; vm_compute; discriminate | apply Hlate; reflexivity].
Defined.

Lemma issue_injective_witness :
  7 = 7
  /\ issue Demo.settings 1 None 0 <> issue Demo.settings 2 (Some 5) 9.
Proof.
  split.
  - apply (issue_injective Demo.settings 7 7 None None 0 0). reflexivity.
  - intros H. apply issue_injective in H. discriminate.
Defined.

(** ** Tables with unique keys *)

Section Tables.

Lemma nodup_key_eq (rs : list User) (a b : User) :
  List.NoDup (map models.user_id rs) ->
  In a rs -> In b rs -> models.user_id a = models.user_id b -> a = b.
Proof.
  induction rs as [|r rs IH]; simpl; [contradiction|].
  intros Hnd Ha Hb Hk. apply NoDup_cons_iff in Hnd as [Hnotin Hnd].
  destruct Ha as [<- | Ha], Hb as [<- | Hb]; auto.
  - exfalso. apply Hnotin. rewrite Hk. now apply in_map.
  - exfalso. apply Hnotin. rewrite <- Hk. now apply in_map.
Qed.

Lemma find_user_id_nodup (rs : list User) (u : User) :
  List.NoDup (map models.user_id rs) -> In u rs ->
  find (fun r => Z.eqb (models.user_id r) (models.user_id u)) rs = Some u.
Proof.
  intros Hnd Hin.
  destruct (find_user_id_exists rs (models.user_id u) u Hin eq_refl)
    as [user Hf].
  rewrite Hf. f_equal.
  apply find_user_id_spec in Hf as [Hin' Hk].
  now apply (nodup_key_eq rs).
Qed.

Lemma find_map_stable (p : User -> bool) (g : User -> User) (rs : list User) :
  (forall r, p (g r) = p r) ->
  find p (map g rs) = option_map g (find p rs).
Proof.
  intros Hp. induction rs as [|r rs IH]; simpl; [reflexivity|].
  rewrite Hp. destruct (p r); [reflexivity | exact IH].
Qed.

Lemma update_row_stamp (rs : list User) (user : User) (t : Z) :
  List.NoDup (map models.user_id rs) -> In user rs ->
  update_row (set_last_login_at t user) rs
  = map (stamp_row (models.user_id user) t) rs.
Proof.
  intros Hnd Hin. unfold update_row. apply map_ext_in. intros r Hr.
  unfold stamp_row. simpl.
  destruct (Z.eqb_spec (models.user_id r) (models.user_id user)) as [E|];
    [|reflexivity].
  now rewrite (nodup_key_eq rs r user Hnd Hr Hin E).
Qed.

Lemma stamp_row_key (k t : Z) (r : User) :
  models.user_id (stamp_row k t r) = models.user_id r.
Proof. unfold stamp_row. now destruct (Z.eqb _ k). Qed.

Lemma stamp_row_name (k t : Z) (r : User) :
  models.name (stamp_row k t r) = models.name r.
Proof. unfold stamp_row. now destruct (Z.eqb _ k). Qed.

Lemma stamp_row_password (k t : Z) (r : User) :
  models.password (stamp_row k t r) = models.password r.
Proof. unfold stamp_row. now destruct (Z.eqb _ k). Qed.

End Tables.

(** ** After a login *)

Section AfterLogin.

Variable settings : Settings.
Variable verify_password : string -> string -> result bool.

Lemma authenticate_user_some (f : Faults) (db : Session)
    (username password : string) (user : User) :
  authenticate_user verify_password f db username password = Some user ->
  query_fault f = None
  /\ find (fun u => String.eqb (models.name u) username) (rows db) = Some user
  /\ verify_password password (models.password user) = Return true
  /\ In user (rows db) /\ models.name user = username.
Proof.
  unfold authenticate_user, db_first.
  destruct (query_fault f); [discriminate|].
  destruct (find _ (rows db)) as [u|] eqn:Hf; [|discriminate].
  destruct (verify_password password (models.password u)) as [[|]|] eqn:Hv;
    try discriminate.
  intros [= <-]. destruct (find_name_spec _ _ _ Hf). auto.
Qed.

Lemma authenticate_user_intro (f : Faults) (db : Session)
    (username password : string) (user : User) :
  query_fault f = None ->
  find (fun u => String.eqb (models.name u) username) (rows db) = Some user ->
  verify_password password (models.password user) = Return true ->
  authenticate_user verify_password f db username password = Some user.
Proof.
  intros Hq Hf Hv. unfold authenticate_user, db_first.
  now rewrite Hq, Hf, Hv.
Qed.

(** The table a login leaves, by the outcome of its commit. *)
Lemma login_rows (f : Faults) (rs : list User) (username password : string)
    (t_login t_token : Z) (user : User) :
  authenticate_user verify_password f (fresh rs) username password
  = Some user ->
  List.NoDup (map models.user_id rs) ->
  snd (login settings verify_password f (fresh rs) username password
         t_login t_token)
  = fresh (match commit_fault f with
           | Some _ => rs
           | None => map (stamp_row (models.user_id user) t_login) rs
           end)
  /\ snd (login_for_access_token settings verify_password f (fresh rs)
            username password t_login t_token)
     = fresh (match commit_fault f with
              | Some _ => rs
              | None => map (stamp_row (models.user_id user) t_login) rs
              end).
Proof.
  intros Hauth Hnd.
  destruct (authenticate_user_some _ _ _ _ _ Hauth) as (_ & _ & _ & Hin & _).
  rewrite (login_success settings verify_password _ _ _ _ t_login t_token _
             Hauth),
          (login_for_access_token_success settings verify_password _ _ _ _
             t_login t_token _ Hauth).
  simpl snd. unfold db_commit. destruct (commit_fault f); [split; reflexivity|].
  simpl snd.
  rewrite (update_row_stamp rs user t_login Hnd Hin). split; reflexivity.
Qed.

(** X6 -- a login whose commit works changes one thing in a table with
    unique keys: the [last_login_at] of the authenticated user's row.  Every
    other row and every other column is as before, and nothing is left
    pending. *)
Theorem login_stamps_one_row (f : Faults) (rs : list User)
    (username password : string) (t_login t_token : Z) (user : User) :
  authenticate_user verify_password f (fresh rs) username password
  = Some user ->
  commit_fault f = None ->
  List.NoDup (map models.user_id rs) ->
  snd (login settings verify_password f (fresh rs) username password
         t_login t_token)
  = fresh (map (stamp_row (models.user_id user) t_login) rs)
  /\ snd (login_for_access_token settings verify_password f (fresh rs)
            username password t_login t_token)
     = fresh (map (stamp_row (models.user_id user) t_login) rs)
  /\ In (set_last_login_at t_login user)
        (map (stamp_row (models.user_id user) t_login) rs)
  /\ map models.user_id (map (stamp_row (models.user_id user) t_login) rs)
     = map models.user_id rs
  /\ map models.name (map (stamp_row (models.user_id user) t_login) rs)
     = map models.name rs
  /\ map models.password (map (stamp_row (models.user_id user) t_login) rs)
     = map models.password rs.
Proof.
  intros Hauth Hc Hnd.
  destruct (login_rows f rs username password t_login t_token user Hauth Hnd)
    as [Hl Ht].
  rewrite Hc in Hl, Ht.
  destruct (authenticate_user_some _ _ _ _ _ Hauth) as (_ & _ & _ & Hin & _).
  split; [exact Hl|]. split; [exact Ht|]. split.
  - apply in_map_iff. exists user. split; [|exact Hin].
    unfold stamp_row. now rewrite Z.eqb_refl.
  - rewrite !map_map. repeat split; apply map_ext; intros r.
    + apply stamp_row_key.
    + apply stamp_row_name.
    + apply stamp_row_password.
Qed.

End AfterLogin.

Section LoginComposition.

Variable settings : Settings.
Variable verify_password : string -> string -> result bool.
Variable TokenData_other : pyval -> result Z.

Lemma stamp_row_self (t : Z) (user : User) :
  stamp_row (models.user_id user) t user = set_last_login_at t user.
Proof. unfold stamp_row. now rewrite Z.eqb_refl. Qed.

(** X7 -- logging in does not lock the user out: on the table either login
    endpoint leaves (whether its commit worked or not), the same credentials
    authenticate again, to the row with the same key and name; when the
    commit worked, that row shows the login time. *)
Theorem login_then_authenticate (f f2 : Faults) (rs : list User)
    (username password : string) (t_login t_token : Z) (user : User)
    (db' : Session) :
  authenticate_user verify_password f (fresh rs) username password
  = Some user ->
  List.NoDup (map models.user_id rs) ->
  query_fault f2 = None ->
  db' = snd (login settings verify_password f (fresh rs) username password
               t_login t_token)
  \/ db' = snd (login_for_access_token settings verify_password f (fresh rs)
                  username password t_login t_token) ->
  exists user',
    authenticate_user verify_password f2 db' username password = Some user'
    /\ models.user_id user' = models.user_id user
    /\ models.name user' = models.name user
    /\ (commit_fault f = None -> models.last_login_at user' = Some t_login).
Proof.
  intros Hauth Hnd Hq2 Hdb.
  destruct (login_rows settings verify_password f rs username password
              t_login t_token user Hauth Hnd) as [Hl Ht].
  assert (Hrows : db' = fresh (match commit_fault f with
                               | Some _ => rs
                               | None => map (stamp_row (models.user_id user)
                                                t_login) rs
                               end))
    by (destruct Hdb as [-> | ->]; assumption).
  destruct (authenticate_user_some _ _ _ _ _ _ Hauth)
    as (_ & Hfind & Hv & _ & _).
  simpl rows in Hfind. subst db'.
  destruct (commit_fault f) as [msg|].
  - exists user. split; [|split; [reflexivity|split; [reflexivity|discriminate]]].
    now apply authenticate_user_intro.
  - exists (set_last_login_at t_login user).
    split; [|split; [reflexivity|split; [reflexivity|reflexivity]]].
    apply authenticate_user_intro; [assumption | | exact Hv].
    simpl rows. rewrite find_map_stable.
    + rewrite Hfind. simpl. now rewrite stamp_row_self.
    + intros r. now rewrite stamp_row_name.
Qed.

(** X8 -- the token a successful login returns resolves, on the table that
    login leaves and until its expiry, to the user the response names: the
    resolved row has the response's [user_id] and [user_name]. *)
Theorem login_token_resolves (f f2 : Faults) (rs : list User)
    (username password : string) (t_login t_token t_resolve : Z)
    (r : Token) (hdrs : list (string * string)) (db' : Session) :
  login settings verify_password f (fresh rs) username password
    t_login t_token = (Return (r, hdrs), db')
  \/ login_for_access_token settings verify_password f (fresh rs)
       username password t_login t_token = (Return (r, hdrs), db') ->
  List.NoDup (map models.user_id rs) ->
  query_fault f2 = None ->
  t_resolve
  <= t_token + timedelta_minutes (ACCESS_TOKEN_EXPIRE_MINUTES settings) ->
  exists user,
    get_current_user settings TokenData_other f2 db'
      (Some (schemas.access_token r)) t_resolve = Return user
    /\ models.user_id user = schemas.user_id r
    /\ models.name user = schemas.user_name r.
Proof.
  intros Hlogin Hnd Hq2 Hlive.
  destruct (authenticate_user verify_password f (fresh rs) username password)
    as [user|] eqn:Hauth.
  2: { destruct (login_failure settings verify_password f (fresh rs) username
                   password t_login t_token Hauth) as [Hl Ht].
       destruct Hlogin as [H | H]; [rewrite Hl in H | rewrite Ht in H];
         discriminate. }
  destruct (login_rows settings verify_password f rs username password
              t_login t_token user Hauth Hnd) as [Hl Ht].
  destruct (authenticate_user_some _ _ _ _ _ _ Hauth)
    as (_ & _ & _ & Hin & _).
  simpl rows in Hin.
  assert (Hr : r = schemas.mkToken
                     (handler_token settings (models.user_id user) t_token)
                     "bearer" (models.user_id user) (models.name user)
               /\ db' = fresh (match commit_fault f with
                               | Some _ => rs
                               | None => map (stamp_row (models.user_id user)
                                                t_login) rs
                               end)).
  { destruct Hlogin as [H | H].
    - rewrite H in Hl. simpl in Hl.
      rewrite (login_success settings verify_password _ _ _ _ t_login t_token
                 _ Hauth) in H.
      destruct (refresh_fault f); [discriminate|].
      injection H as <- _ _. auto.
    - rewrite H in Ht. simpl in Ht.
      rewrite (login_for_access_token_success settings verify_password
                 _ _ _ _ t_login t_token _ Hauth) in H.
      destruct (refresh_fault f); [discriminate|].
      injection H as <- _ _. auto. }
  destruct Hr as [-> ->]. simpl schemas.access_token.
  unfold get_current_user, handler_token.
  rewrite decode_token_data_signed.
  apply timegm_mono in Hlive.
  destruct (Z.ltb_spec
              (timegm (t_token + timedelta_minutes
                                   (ACCESS_TOKEN_EXPIRE_MINUTES settings)))
              (timegm t_resolve)); [lia|].
  unfold db_first. rewrite Hq2. simpl rows.
  destruct (commit_fault f) as [msg|].
  - rewrite (find_user_id_nodup rs user Hnd Hin). eauto.
  - rewrite find_map_stable by (intros r; now rewrite stamp_row_key).
    rewrite (find_user_id_nodup rs user Hnd Hin). simpl.
    eexists. split; [reflexivity|].
    now rewrite stamp_row_key, stamp_row_name.
Qed.

End LoginComposition.

Lemma login_stamps_one_row_witness :
  snd (login Demo.settings Demo.verify_password no_faults (fresh Demo.table)
         "bob" "hunter2" 5000000 6000000)
  = fresh [Demo.alice; set_last_login_at 5000000 Demo.bob].
Proof.
  destruct (login_stamps_one_row Demo.settings Demo.verify_password no_faults
              Demo.table "bob" "hunter2" 5000000 6000000 Demo.bob)
    as (H & _).
  - reflexivity.
  - reflexivity.
  - repeat constructor; simpl; intuition discriminate.
  - exact H.
Defined.

Lemma login_then_authenticate_witness :
  exists user',
    authenticate_user Demo.verify_password no_faults
      (fresh [Demo.alice; set_last_login_at 5000000 Demo.bob])
      "bob" "hunter2" = Some user'
    /\ models.user_id user' = 2.
Proof.
  destruct (login_then_authenticate Demo.settings Demo.verify_password
              no_faults no_faults Demo.table "bob" "hunter2" 5000000 6000000
              Demo.bob (fresh [Demo.alice; set_last_login_at 5000000 Demo.bob]))
    as (user' & H1 & H2 & _).
  - reflexivity.
  - repeat constructor; simpl; intuition discriminate.
  - reflexivity.
  - left. reflexivity.
  - exists user'. auto.
Defined.

Lemma login_token_resolves_witness :
  exists user,
    get_current_user Demo.settings Demo.TokenData_other no_faults
      (fresh Demo.table)
      (Some (handler_token Demo.settings 2 6000000))
      9000000 = Return user
    /\ models.user_id user = 2 /\ models.name user = "bob".
Proof.
  apply (login_token_resolves Demo.settings Demo.verify_password
           Demo.TokenData_other Demo.commit_down no_faults Demo.table
           "bob" "hunter2" 5000000 6000000 9000000
           (schemas.mkToken
              (handler_token Demo.settings 2 6000000)
              "bearer" 2 "bob")
           cors_headers (fresh Demo.table)).
  - left. vm_compute. reflexivity.
  - repeat constructor; simpl; intuition discriminate.
  - reflexivity.
  - vm_compute. discriminate.
Defined.

(** ** Database faults at the entry points *)

Section LookupFaults.

Variable settings : Settings.
Variable get_password_hash : string -> result string.
Variable verify_password : string -> string -> result bool.
Variable TokenData_other : pyval -> result Z.

(** X9 -- what a failing user lookup does at each entry point.  The two
    login endpoints answer as for wrong credentials (401) and leave the
    session alone.  Registration reports a password mismatch first, without
    touching the database, and otherwise lets the database error through
    unchanged (it is not turned into the 500 answer).  The resolver lets the
    database error through even for a valid, unexpired token. *)
Theorem lookup_fault_outcomes (f : Faults) (msg : string) :
  query_fault f = Some msg ->
  (forall db username password t_login t_token,
      login settings verify_password f db username password t_login t_token
      = (Raise (HTTP (mkHTTPException 401
                        "ユーザー名またはパスワードが無効です" [])), db)
      /\ login_for_access_token settings verify_password f db username
           password t_login t_token
         = (Raise (HTTP (mkHTTPException 401
                           "ユーザー名またはパスワードが無効です"
                           [("WWW-Authenticate", "Bearer")])), db))
  /\ (forall db user_data t_created t_token,
         schemas.password user_data = schemas.confirm_password user_data ->
         register_user settings get_password_hash f db user_data
           t_created t_token
         = (Raise (OperationalError msg), db))
  /\ (forall db user_data t_created t_token,
         schemas.password user_data <> schemas.confirm_password user_data ->
         register_user settings get_password_hash f db user_data
           t_created t_token
         = (Raise (HTTP (mkHTTPException 400 "パスワードが一致しません" [])), db))
  /\ (forall db k ttl t_issue t_resolve,
         ttl <> 0 -> t_resolve <= t_issue + ttl ->
         exists tok,
           issue settings k (Some ttl) t_issue = Return tok
           /\ get_current_user settings TokenData_other f db (Some tok)
                t_resolve
              = Raise (OperationalError msg)).
Proof.
  intros Hq. split; [|split; [|split]].
  - intros db username password t_login t_token.
    apply login_failure. unfold authenticate_user, db_first. now rewrite Hq.
  - intros db user_data t_created t_token Hpw. unfold register_user.
    rewrite Hpw, String.eqb_refl. simpl. unfold db_first. now rewrite Hq.
  - intros db user_data t_created t_token Hpw. unfold register_user.
    destruct (String.eqb_spec (schemas.password user_data)
                (schemas.confirm_password user_data)); [contradiction|].
    reflexivity.
  - intros db k ttl t_issue t_resolve Hne Hlive.
    eexists. split; [exact (issue_given settings k t_issue ttl Hne)|].
    unfold get_current_user. rewrite decode_token_data_signed.
    apply timegm_mono in Hlive.
    destruct (Z.ltb_spec (timegm (t_issue + ttl)) (timegm t_resolve)); [lia|].
    unfold db_first. now rewrite Hq.
Qed.

End LookupFaults.

Lemma lookup_fault_outcomes_witness :
  login Demo.settings Demo.verify_password Demo.query_down (fresh Demo.table)
    "alice" "secret" 5000000 6000000
  = (Raise (HTTP (mkHTTPException 401
                    "ユーザー名またはパスワードが無効です" [])), fresh Demo.table)
  /\ register_user Demo.settings Demo.get_password_hash Demo.query_down
       (fresh Demo.table) Demo.carol_form 7000000 7000001
     = (Raise (OperationalError "server has gone away"), fresh Demo.table)
  /\ exists tok,
       issue Demo.settings 1 (Some 5000000) 0 = Return tok
       /\ get_current_user Demo.settings Demo.TokenData_other Demo.query_down
            (fresh Demo.table) (Some tok) 1000
          = Raise (OperationalError "server has gone away").
Proof.
  destruct (lookup_fault_outcomes Demo.settings Demo.get_password_hash
              Demo.verify_password Demo.TokenData_other Demo.query_down
              "server has gone away" eq_refl) as (Hl & Hr & _ & Hg).
  split; [apply Hl|]. split; [apply Hr; reflexivity|].
  apply Hg; [discriminate | lia].
Defined.

(** ** After a registration *)

Section AfterRegistration.

Variable settings : Settings.
Variable get_password_hash : string -> result string.
Variable verify_password : string -> string -> result bool.

(** A successful registration, spelled out. *)
Lemma register_user_success (f : Faults) (rs : list User)
    (user_data : UserCreate) (t_created t_token : Z)
    (r : Token * list (string * string)) (db' : Session) :
  register_user settings get_password_hash f (fresh rs) user_data
    t_created t_token = (Return r, db') ->
  exists hashed,
    get_password_hash (schemas.password user_data) = Return hashed
    /\ r = (schemas.mkToken
              (handler_token settings (next_user_id rs) t_token)
              "bearer" (next_user_id rs) (schemas.name user_data),
            cors_headers)
    /\ db' = fresh (rs ++ [created_user rs user_data hashed t_created])
    /\ (forall u, In u rs -> models.name u <> schemas.name user_data).
Proof.
  intros H.
  destruct (register_user_cases settings get_password_hash f rs user_data
              t_created t_token)
    as [(h & Ho & _) | [(msg & Ho & _) | [(h & Ho & _) | [(h & Ho & _)
       | [(h & hashed & Ho & _) | (hashed & Ho & Hh & _ & Hfree & _)]]]]];
    cbv zeta in *; try congruence.
  rewrite Ho in H. injection H as <- <-. exists hashed. auto.
Qed.

Lemma find_name_app_new (rs : list User) (username : string) (u : User) :
  (forall r, In r rs -> models.name r <> username) ->
  models.name u = username ->
  find (fun r => String.eqb (models.name r) username) (rs ++ [u]) = Some u.
Proof.
  intros Hfree Hu. induction rs as [|r rs IH]; simpl.
  - rewrite Hu, String.eqb_refl. reflexivity.
  - destruct (String.eqb_spec (models.name r) username) as [E|].
    + exfalso. apply (Hfree r); [now left | exact E].
    + apply IH. intros r' Hr'. apply Hfree. now right.
Qed.

(** X10 -- registration keeps display names unique: after a success the
    old rows are all still there, in order, followed by the one new row,
    and if no two rows shared a name before, none do afterwards. *)
Theorem register_user_keeps_names_unique (f : Faults) (rs : list User)
    (user_data : UserCreate) (t_created t_token : Z)
    (r : Token * list (string * string)) (db' : Session) :
  register_user settings get_password_hash f (fresh rs) user_data
    t_created t_token = (Return r, db') ->
  (exists u, rows db' = (rs ++ [u])%list
             /\ models.name u = schemas.name user_data)
  /\ (List.NoDup (map models.name rs) ->
      List.NoDup (map models.name (rows db'))).
Proof.
  intros H.
  destruct (register_user_success f rs user_data t_created t_token r db' H)
    as (hashed & _ & _ & -> & Hfree).
  simpl rows. split; [eauto|].
  intros Hnd. rewrite map_app. simpl.
  apply List.NoDup_app; [exact Hnd | |].
  - repeat constructor. intros [].
  - intros name Hin [<- | []].
    apply in_map_iff in Hin as (u & Hname & Hu).
    now apply (Hfree u Hu).
Qed.

(** X11 -- registering a name that a successful registration has just
    taken fails with the duplicate-name answer (status 400) and leaves the
    table as the first registration left it. *)
Theorem register_user_twice (f f2 : Faults) (rs : list User)
    (first second : UserCreate) (t_created t_token t_created2 t_token2 : Z)
    (r : Token * list (string * string)) (db' : Session) :
  register_user settings get_password_hash f (fresh rs) first
    t_created t_token = (Return r, db') ->
  schemas.name second = schemas.name first ->
  schemas.password second = schemas.confirm_password second ->
  query_fault f2 = None ->
  register_user settings get_password_hash f2 (fresh (rows db')) second
    t_created2 t_token2
  = (Raise (HTTP (mkHTTPException 400
                    "このユーザー名は既に使用されています" [])),
     fresh (rows db')).
Proof.
  intros H Hname Hpw Hq.
  destruct (register_user_success f rs first t_created t_token r db' H)
    as (hashed & _ & _ & -> & Hfree).
  simpl rows. unfold register_user.
  rewrite Hpw, String.eqb_refl. simpl negb. cbv iota.
  unfold db_first. rewrite Hq. simpl rows. rewrite Hname.
  rewrite (find_name_app_new rs (schemas.name first)
             (created_user rs first hashed t_created) Hfree eq_refl).
  reflexivity.
Qed.

(** X12 -- who has registered can log in: when the hasher verifies the
    hashes it produces, a login with the registered name and password on
    the table the registration left is accepted.  If the reload of the user
    after the commit (or after the rollback of a failed commit) answers, the
    login returns, and its answer names the same [user_id] and [user_name]
    as the registration's answer; if that reload fails, the login fails
    with the database's error. *)
Theorem register_then_login (f f2 : Faults) (rs : list User)
    (user_data : UserCreate) (t_created t_token t_login t_token2 : Z)
    (r : Token) (hdrs : list (string * string)) (db' : Session) :
  register_user settings get_password_hash f (fresh rs) user_data
    t_created t_token = (Return (r, hdrs), db') ->
  (forall hashed,
      get_password_hash (schemas.password user_data) = Return hashed ->
      verify_password (schemas.password user_data) hashed = Return true) ->
  query_fault f2 = None ->
  exists r2 db2,
    login settings verify_password f2 (fresh (rows db'))
      (schemas.name user_data) (schemas.password user_data) t_login t_token2
    = (match refresh_fault f2 with
       | Some msg => Raise (OperationalError msg)
       | None => Return (r2, cors_headers)
       end, db2)
    /\ schemas.user_id r2 = schemas.user_id r
    /\ schemas.user_name r2 = schemas.user_name r.
Proof.
  intros H Hhasher Hq.
  destruct (register_user_success f rs user_data t_created t_token _ db' H)
    as (hashed & Hh & [= -> _] & -> & Hfree).
  simpl rows.
  assert (Hauth : authenticate_user verify_password f2
                    (fresh (rs ++ [created_user rs user_data hashed t_created]))
                    (schemas.name user_data) (schemas.password user_data)
                  = Some (created_user rs user_data hashed t_created)).
  { apply authenticate_user_intro; [exact Hq | | now apply Hhasher].
    now apply find_name_app_new. }
  rewrite (login_success settings verify_password _ _ _ _ t_login t_token2 _
             Hauth).
  do 2 eexists. split; [reflexivity|]. split; reflexivity.
Qed.

(** X13 -- the 500 answer of a failed registration carries the text of the
    underlying fault after a fixed prefix: the hasher's error, or the
    database's error at commit or at the reload. *)
Theorem register_user_500_detail (f : Faults) (rs : list User)
    (user_data : UserCreate) (t_created t_token : Z)
    (h : HTTPException) (db' : Session) :
  register_user settings get_password_hash f (fresh rs) user_data
    t_created t_token = (Raise (HTTP h), db') ->
  status_code h = 500 ->
  exists e,
    detail h = "ユーザー登録中にエラーが発生しました: " ++ exn_str e
    /\ headers h = []
    /\ (get_password_hash (schemas.password user_data) = Raise e
        \/ (exists msg, e = OperationalError msg
                        /\ (commit_fault f = Some msg
                            \/ refresh_fault f = Some msg))).
Proof.
  unfold register_user.
  destruct (negb _); [intros [= <- _]; discriminate|].
  unfold db_first. destruct (query_fault f); [discriminate|].
  destruct (find _ _); [intros [= <- _]; discriminate|].
  destruct (get_password_hash (schemas.password user_data))
    as [hashed|e] eqn:Hh.
  2: { intros [= <- _] _. exists e. auto. }
  unfold db_commit. destruct (commit_fault f) as [msg|] eqn:Hc.
  { intros [= <- _] _. exists (OperationalError msg).
    split; [reflexivity|]. split; [reflexivity|]. right. eauto. }
  unfold db_refresh_last. destruct (refresh_fault f) as [msg|] eqn:Hr.
  { intros [= <- _] _. exists (OperationalError msg).
    split; [reflexivity|]. split; [reflexivity|]. right. eauto. }
  simpl rows. destruct (last _) as [u|] eqn:Hlast.
  - pose proof (issue_configured settings (models.user_id u) t_token) as Hi.
    unfold issue in Hi. cbv zeta in Hi. rewrite Hi. discriminate.
  - exfalso. simpl in Hlast.
    rewrite last_snoc in Hlast. discriminate.
Qed.

End AfterRegistration.

Lemma register_user_keeps_names_unique_witness :
  List.NoDup
    (map models.name
       (Demo.table ++
        [models.mkUser 3 "carol" "hash:pw" "puzzle,quiz" 0 (Some 7000000)])).
Proof.
  destruct (register_user_keeps_names_unique Demo.settings
              Demo.get_password_hash no_faults Demo.table Demo.carol_form
              7000000 7000001
              (schemas.mkToken
                 (handler_token Demo.settings 3 7000001)
                 "bearer" 3 "carol", cors_headers)
              (fresh (Demo.table ++
                      [models.mkUser 3 "carol" "hash:pw" "puzzle,quiz" 0
                         (Some 7000000)])))
    as [_ H].
  - vm_compute. reflexivity.
  - apply H. repeat constructor; simpl; intuition discriminate.
Defined.

Lemma register_user_twice_witness :
  register_user Demo.settings Demo.get_password_hash no_faults
    (fresh (Demo.table ++
            [models.mkUser 3 "carol" "hash:pw" "puzzle,quiz" 0 (Some 7000000)]))
    (schemas.mkUserCreate "carol" "other" "other" []) 8000000 8000001
  = (Raise (HTTP (mkHTTPException 400
                    "このユーザー名は既に使用されています" [])),
     fresh (Demo.table ++
            [models.mkUser 3 "carol" "hash:pw" "puzzle,quiz" 0 (Some 7000000)])).
Proof.
  apply (register_user_twice Demo.settings Demo.get_password_hash
           no_faults no_faults Demo.table Demo.carol_form
           (schemas.mkUserCreate "carol" "other" "other" [])
           7000000 7000001 8000000 8000001
           (schemas.mkToken
              (handler_token Demo.settings 3 7000001)
              "bearer" 3 "carol", cors_headers)
           (fresh (Demo.table ++
                   [models.mkUser 3 "carol" "hash:pw" "puzzle,quiz" 0
                      (Some 7000000)]))).
  - vm_compute. reflexivity.
  - reflexivity.
  - reflexivity.
  - reflexivity.
Defined.

Lemma register_then_login_witness :
  exists r2 db2,
    login Demo.settings Demo.verify_password no_faults
      (fresh (Demo.table ++
              [models.mkUser 3 "carol" "hash:pw" "puzzle,quiz" 0
                 (Some 7000000)]))
      "carol" "pw" 8000000 8000001
    = (Return (r2, cors_headers), db2)
    /\ schemas.user_id r2 = 3 /\ schemas.user_name r2 = "carol".
Proof.
  refine (register_then_login Demo.settings Demo.get_password_hash
           Demo.verify_password no_faults no_faults Demo.table Demo.carol_form
           7000000 7000001 8000000 8000001
           (schemas.mkToken
              (handler_token Demo.settings 3 7000001)
              "bearer" 3 "carol")
           cors_headers
           (fresh (Demo.table ++
                   [models.mkUser 3 "carol" "hash:pw" "puzzle,quiz" 0
                      (Some 7000000)])) _ _ _).
  - vm_compute. reflexivity.
  - intros hashed [= <-]. reflexivity.
  - reflexivity.
Defined.

Lemma register_user_500_detail_witness :
  exists e,
    "ユーザー登録中にエラーが発生しました: server has gone away"
    = "ユーザー登録中にエラーが発生しました: " ++ exn_str e
    /\ e = OperationalError "server has gone away".
Proof.
  destruct (register_user_500_detail Demo.settings Demo.get_password_hash
              Demo.commit_down Demo.table Demo.carol_form 7000000 7000001
              (mkHTTPException 500
                 "ユーザー登録中にエラーが発生しました: server has gone away" [])
              (fresh Demo.table))
    as (e & Hd & _ & [Hh | (msg & -> & [Hc | Hr])]).
  - vm_compute. reflexivity.
  - reflexivity.
  - discriminate.
  - injection Hc as <-. eauto.
  - discriminate.
Defined.

(** ** Sessions handed out by [get_db] *)

Section RequestScope.

Variable settings : Settings.
Variable get_password_hash : string -> result string.
Variable verify_password : string -> string -> result bool.

Lemma login_leaves_nothing_pending (f : Faults) (rs : list User)
    (username password : string) (t_login t_token : Z) :
  db_close (snd (login settings verify_password f (fresh rs) username
                   password t_login t_token))
  = snd (login settings verify_password f (fresh rs) username password
           t_login t_token)
  /\ db_close (snd (login_for_access_token settings verify_password f
                      (fresh rs) username password t_login t_token))
     = snd (login_for_access_token settings verify_password f (fresh rs)
              username password t_login t_token).
Proof.
  destruct (authenticate_user verify_password f (fresh rs) username password)
    as [user|] eqn:Hauth.
  - rewrite (login_success settings verify_password _ _ _ _ t_login t_token _
               Hauth),
            (login_for_access_token_success settings verify_password _ _ _ _
               t_login t_token _ Hauth).
    simpl snd. unfold db_commit.
    destruct (commit_fault f); split; reflexivity.
  - destruct (login_failure settings verify_password f (fresh rs) username
                password t_login t_token Hauth) as [-> ->].
    split; reflexivity.
Qed.

Lemma register_leaves_nothing_pending (f : Faults) (rs : list User)
    (user_data : UserCreate) (t_created t_token : Z) :
  db_close (snd (register_user settings get_password_hash f (fresh rs)
                   user_data t_created t_token))
  = snd (register_user settings get_password_hash f (fresh rs) user_data
           t_created t_token).
Proof.
  destruct (register_user_cases settings get_password_hash f rs user_data
              t_created t_token)
    as [(h & Ho & _) | [(msg & Ho & _) | [(h & Ho & _) | [(h & Ho & _)
       | [(h & hashed & Ho & _) | (hashed & Ho & _)]]]]];
    cbv zeta in Ho; rewrite Ho; reflexivity.
Qed.

(** X14 -- run through [get_db], each of the three handlers gives exactly
    what it gives on a new session: when the handler is done, whatever way
    it ends, it has committed or rolled back everything, so the closing
    [db.close()] finds nothing pending to discard. *)
Theorem get_db_discards_nothing (f : Faults) (rs : list User) :
  (forall username password t_login t_token,
      get_db rs (fun db => login settings verify_password f db username
                             password t_login t_token)
      = login settings verify_password f (fresh rs) username password
          t_login t_token)
  /\ (forall username password t_login t_token,
         get_db rs (fun db => login_for_access_token settings verify_password
                                f db username password t_login t_token)
         = login_for_access_token settings verify_password f (fresh rs)
             username password t_login t_token)
  /\ (forall user_data t_created t_token,
         get_db rs (fun db => register_user settings get_password_hash f db
                                user_data t_created t_token)
         = register_user settings get_password_hash f (fresh rs) user_data
             t_created t_token).
Proof.
  split; [|split].
  - intros username password t_login t_token. unfold get_db.
    destruct (login_leaves_nothing_pending f rs username password
                t_login t_token) as [H _].
    destruct (login _ _ _ _ _ _ _ _) as [r db']. simpl in H. now rewrite H.
  - intros username password t_login t_token. unfold get_db.
    destruct (login_leaves_nothing_pending f rs username password
                t_login t_token) as [_ H].
    destruct (login_for_access_token _ _ _ _ _ _ _ _) as [r db'].
    simpl in H. now rewrite H.
  - intros user_data t_created t_token. unfold get_db.
    pose proof (register_leaves_nothing_pending f rs user_data
                  t_created t_token) as H.
    destruct (register_user _ _ _ _ _ _ _) as [r db'].
    simpl in H. now rewrite H.
Qed.

End RequestScope.

(** ** Connection arguments *)

Section ConnectArgs.

Lemma ascii_lower_idempotent (c : ascii) :
  ascii_lower (ascii_lower c) = ascii_lower c.
Proof. destruct c as [[] [] [] [] [] [] [] []]; reflexivity. Qed.

Lemma lower_idempotent (s : string) : lower (lower s) = lower s.
Proof.
  induction s as [|c r IH]; simpl; [reflexivity|].
  now rewrite ascii_lower_idempotent, IH.
Qed.

Lemma prefix_app (needle suf : string) :
  String.prefix needle (needle ++ suf) = true.
Proof.
  induction needle as [|c r IH].
  { change (EmptyString ++ suf) with suf. destruct suf; reflexivity. }
  change (String c r ++ suf) with (String c (r ++ suf)). simpl.
  destruct (ascii_dec c c); [exact IH | contradiction].
Qed.

Lemma prefix_inv (needle hay : string) :
  String.prefix needle hay = true -> exists suf, hay = needle ++ suf.
Proof.
  revert hay. induction needle as [|c r IH]; intros hay H.
  - exists hay. reflexivity.
  - destruct hay as [|d hay]; simpl in H; [discriminate|].
    destruct (ascii_dec c d) as [<- |]; [|discriminate].
    destruct (IH hay H) as [suf ->]. exists suf. reflexivity.
Qed.

Lemma contains_unfold (needle hay : string) :
  contains needle hay
  = (String.prefix needle hay
     || match hay with
        | EmptyString => false
        | String _ r => contains needle r
        end)%bool.
Proof. destruct hay; reflexivity. Qed.

(** [contains] is the substring test. *)
Lemma contains_iff (needle hay : string) :
  contains needle hay = true
  <-> exists pre suf, hay = pre ++ needle ++ suf.
Proof.
  split.
  - induction hay as [|c hay IH]; rewrite contains_unfold; intros H;
      apply orb_true_iff in H as [H | H].
    + destruct (prefix_inv _ _ H) as [suf ->]. exists EmptyString, suf.
      reflexivity.
    + discriminate.
    + destruct (prefix_inv _ _ H) as [suf ->]. exists EmptyString, suf.
      reflexivity.
    + destruct (IH H) as (pre & suf & ->). exists (String c pre), suf.
      reflexivity.
  - intros (pre & suf & ->). induction pre as [|c pre IH];
      rewrite contains_unfold; apply orb_true_iff.
    + left. exact (prefix_app needle suf).
    + right. exact IH.
Qed.

(** X15 -- the SSL mode is compared without regard to letter case: two
    settings whose modes differ only in case get the same connection
    arguments, and writing the mode in lower case changes nothing. *)
Theorem get_db_connect_args_case_insensitive (azure debug cert : bool)
    (url mode mode' : string) :
  (lower mode = lower mode' ->
   get_db_connect_args (mkDatabaseSettings azure mode url debug) cert
   = get_db_connect_args (mkDatabaseSettings azure mode' url debug) cert)
  /\ get_db_connect_args (mkDatabaseSettings azure (lower mode) url debug) cert
     = get_db_connect_args (mkDatabaseSettings azure mode url debug) cert.
Proof.
  split.
  - intros H. unfold get_db_connect_args. simpl. now rewrite H.
  - unfold get_db_connect_args. simpl. now rewrite lower_idempotent.
Qed.

(** X16 -- what [get_db_connect_args] can contain.  An entry is either
    [ssl], only on Azure with SSL mode "require", holding the CA file when
    the certificate file exists and otherwise switching certificate
    verification off; or [check_same_thread = False], only off Azure with
    "sqlite" in the database URL.  So the dictionary has at most one key,
    and on Azure a sqlite URL gets no [check_same_thread]. *)
Theorem get_db_connect_args_entries (settings : DatabaseSettings)
    (cert : bool) (key : string) (v : connect_arg) :
  get_db_connect_args settings cert !! key = Some v ->
  (USE_AZURE settings = true
   /\ lower (AZURE_MYSQL_SSL_MODE settings) = "require"
   /\ key = "ssl"
   /\ v = ArgDict (if cert
                   then {["ssl_ca" := PStr "DigiCertGlobalRootCA.crt.pem"]}
                   else {["ssl_verify_cert" := PBool false]})
   /\ get_db_connect_args settings cert = {["ssl" := v]})
  \/ (USE_AZURE settings = false
      /\ (exists pre suf,
             SQLALCHEMY_DATABASE_URL settings = pre ++ "sqlite" ++ suf)
      /\ key = "check_same_thread"
      /\ v = ArgBool false
      /\ get_db_connect_args settings cert = {["check_same_thread" := v]}).
Proof.
  unfold get_db_connect_args.
  destruct (USE_AZURE settings).
  - destruct (String.eqb_spec (lower (AZURE_MYSQL_SSL_MODE settings)) "require")
      as [E|]; [|rewrite lookup_empty; discriminate].
    destruct cert; intros H; apply lookup_singleton_Some in H as [<- <-];
      left; auto.
  - destruct (contains "sqlite" (SQLALCHEMY_DATABASE_URL settings)) eqn:E;
      [|rewrite lookup_empty; discriminate].
    intros H; apply lookup_singleton_Some in H as [<- <-].
    right. apply contains_iff in E. auto.
Qed.

(** X17 -- off Azure, the connection arguments are
    [{"check_same_thread": False}] exactly when the database URL has
    "sqlite" somewhere in it, and empty otherwise. *)
Theorem get_db_connect_args_sqlite (settings : DatabaseSettings) (cert : bool) :
  USE_AZURE settings = false ->
  ((exists pre suf, SQLALCHEMY_DATABASE_URL settings = pre ++ "sqlite" ++ suf)
   -> get_db_connect_args settings cert
      = {["check_same_thread" := ArgBool false]})
  /\ (~ (exists pre suf,
            SQLALCHEMY_DATABASE_URL settings = pre ++ "sqlite" ++ suf)
      -> get_db_connect_args settings cert = ∅).
Proof.
  intros Haz. unfold get_db_connect_args. rewrite Haz. split; intros H.
  - apply contains_iff in H. now rewrite H.
  - destruct (contains "sqlite" (SQLALCHEMY_DATABASE_URL settings)) eqn:E;
      [|reflexivity].
    apply contains_iff in E. contradiction.
Qed.

End ConnectArgs.

Lemma get_db_connect_args_case_insensitive_witness :
  get_db_connect_args DemoDb.azure false
  = get_db_connect_args
      (mkDatabaseSettings true "require" "mysql+pymysql://app@db/collab" false)
      false.
Proof.
  destruct (get_db_connect_args_case_insensitive true false false
              "mysql+pymysql://app@db/collab" "REQUIRE" "require") as [H _].
  apply H. reflexivity.
Defined.

Lemma get_db_connect_args_entries_witness :
  get_db_connect_args DemoDb.azure false
  = {["ssl" := ArgDict {["ssl_verify_cert" := PBool false]}]}.
Proof.
  destruct (get_db_connect_args_entries DemoDb.azure false "ssl"
              (ArgDict {["ssl_verify_cert" := PBool false]}) eq_refl)
    as [(_ & _ & _ & _ & H) | (Haz & _)].
  - exact H.
  - discriminate.
Defined.

Lemma get_db_connect_args_sqlite_witness :
  get_db_connect_args DemoDb.local_sqlite true
  = {["check_same_thread" := ArgBool false]}.
Proof.
  destruct (get_db_connect_args_sqlite DemoDb.local_sqlite true eq_refl)
    as [H _].
  apply H. exists EmptyString, ":///./collab.db". reflexivity.
Defined.

(** On Azure a sqlite URL gets no [check_same_thread]; with the certificate
    file present the CA is named. *)
Example demo_connect_args_azure_sqlite :
  get_db_connect_args
    (mkDatabaseSettings true "Require" "sqlite:///./collab.db" false) true
  = {["ssl" := ArgDict {["ssl_ca" := PStr "DigiCertGlobalRootCA.crt.pem"]}]}.
Proof. reflexivity. Qed.

Example demo_connect_args_plain :
  get_db_connect_args
    (mkDatabaseSettings false "require" "postgresql://db/collab" false) true
  = ∅.
Proof. reflexivity. Qed.

(** ** Expiry of the tokens the handlers return *)

Section HandlerTokens.

Variable settings : Settings.
Variable verify_password : string -> string -> result bool.
Variable TokenData_other : pyval -> result Z.

(** X18 -- the token a successful login returns is rejected as
    [InvalidToken] from the second after
    [t_token + ACCESS_TOKEN_EXPIRE_MINUTES] on, on any table and whatever
    the database does. *)
Theorem login_token_expires (f f2 : Faults) (db db2 : Session)
    (username password : string) (t_login t_token t_resolve : Z)
    (r : Token) (hdrs : list (string * string)) (db' : Session) :
  login settings verify_password f db username password t_login t_token
  = (Return (r, hdrs), db')
  \/ login_for_access_token settings verify_password f db username password
       t_login t_token = (Return (r, hdrs), db') ->
  timegm (t_token + timedelta_minutes (ACCESS_TOKEN_EXPIRE_MINUTES settings))
  < timegm t_resolve ->
  get_current_user settings TokenData_other f2 db2
    (Some (schemas.access_token r)) t_resolve
  = Raise (HTTP invalid_token).
Proof.
  intros Hlogin Hlate.
  destruct (authenticate_user verify_password f db username password)
    as [user|] eqn:Hauth.
  2: { destruct (login_failure settings verify_password f db username
                   password t_login t_token Hauth) as [Hl Ht].
       destruct Hlogin as [H | H]; [rewrite Hl in H | rewrite Ht in H];
         discriminate. }
  assert (Hr : schemas.access_token r
               = handler_token settings (models.user_id user) t_token).
  { destruct Hlogin as [H | H].
    - rewrite (login_success settings verify_password _ _ _ _ t_login t_token
                 _ Hauth) in H.
      destruct (refresh_fault f); [discriminate|].
      injection H as <- _ _. reflexivity.
    - rewrite (login_for_access_token_success settings verify_password
                 _ _ _ _ t_login t_token _ Hauth) in H.
      destruct (refresh_fault f); [discriminate|].
      injection H as <- _ _. reflexivity. }
  rewrite Hr. unfold get_current_user, handler_token.
  rewrite decode_token_data_signed.
  destruct (Z.ltb_spec
              (timegm (t_token + timedelta_minutes
                                   (ACCESS_TOKEN_EXPIRE_MINUTES settings)))
              (timegm t_resolve)); [reflexivity | lia].
Qed.

End HandlerTokens.

Lemma login_token_expires_witness :
  get_current_user Demo.settings Demo.TokenData_other no_faults
    (fresh Demo.table)
    (Some (handler_token Demo.settings 2 6000000))
    1807000000
  = Raise (HTTP invalid_token).
Proof.
  apply (login_token_expires Demo.settings Demo.verify_password
           Demo.TokenData_other no_faults no_faults (fresh Demo.table)
           (fresh Demo.table) "bob" "hunter2" 5000000 6000000 1807000000
           (schemas.mkToken
              (handler_token Demo.settings 2 6000000)
              "bearer" 2 "bob")
           cors_headers
           (fresh [Demo.alice; set_last_login_at 5000000 Demo.bob])).
  - left. vm_compute. reflexivity.
  - vm_compute. reflexivity.
Defined.
